(** * The RichTextEditor module of the page builder (src/rich_text_editor/index.js)

    A shallow embedding of the module object returned by [module.exports]:
    its closure variables, the fields of the object itself, the JavaScript
    objects and arrays it shares with its callers, and the toolbar element it
    creates.  The public operations [add], [get], [getAll], [getToolbarEl]
    and the lifecycle hooks [init], [postRender], [enable], [disable] are
    state transformers that either complete normally or raise.

    The collaborators of the module (the RichTextEditor model class, the
    [on] helper, the host's views, events and custom editors) are not part of
    the file; they enter the development as variables of a section. *)

From stdpp Require Import base option list strings gmap fin_maps.

Local Open Scope string_scope.
Local Open Scope list_scope.

(** ** The fragment of JavaScript the module manipulates *)

Module JS.

(** References to objects and to arrays (two separate address spaces). *)
Abbreviation loc := positive.

(** The values that callers hand to the module and that it hands on.
    Numbers are left out: the file only writes the literals 0 and 1, which
    are modelled where they occur. *)
Inductive value :=
| VUndefined
| VNull
| VBool (b : bool)
| VStr (s : string)
| VRef (l : loc).

Global Instance value_eq_dec : EqDecision value.
Proof. solve_decision. Defined.

(** Abrupt completions: the TypeError of the language itself (property
    access on undefined or null, property creation on a primitive in strict
    code) and an exception thrown by a collaborator. *)
Inductive error :=
| TypeError
| HostError.

Inductive completion (A : Type) :=
| Normal (a : A)
| Throw (e : error).
Global Arguments Normal {A} a.
Global Arguments Throw {A} e.

Definition is_normal {A} (c : completion A) : bool :=
  match c with Normal _ => true | Throw _ => false end.

(** Truthiness of a string that may be absent: [undefined] and the empty
    string are falsy. *)
Definition truthy_str (o : option string) : bool :=
  match o with
  | Some s => negb (bool_decide (s = ""))
  | None => false
  end.

(** String conversion of a string that may be absent, as performed by a
    template literal and by [+]. *)
Definition to_str (o : option string) : string := default "undefined" o.

End JS.
Export JS.

(** ** Data model *)

(** An action record, [{name: 'bold', ...}].  [name] is a string (the type
    the documentation gives to it) or absent; [props] holds every other own
    property of the object (icon, attributes, event, result, ...).  These
    are plain records: any property of theirs can be assigned.  Frozen or
    non-extensible objects and functions, on which an assignment to [name]
    raises in strict code, are not represented. *)
Record Action := {
  name : option string;
  props : gmap string value;
}.

Global Instance Action_inhabited : Inhabited Action :=
  populate {| name := None; props := ∅ |}.

(** [action.name = name] *)
Definition set_name (n : string) (a : Action) : Action :=
  {| name := Some n; props := props a |}.

(** [action.name == name], for a name that is a string: a string is loosely
    equal to a string exactly when they are the same string, and [undefined]
    is loosely equal to no string. *)
Definition name_eq (field : option string) (n : string) : bool :=
  match field with
  | Some s => bool_decide (s = n)
  | None => false
  end.

(** DOM elements: those created by the [document.createElement] calls of this
    file, numbered in the order of their creation, and all the others. *)
Inductive elem :=
| Created (n : nat)
| Foreign (n : nat).

Global Instance elem_eq_dec : EqDecision elem.
Proof. solve_decision. Defined.

Global Instance elem_countable : Countable elem :=
  inj_countable'
    (λ e, match e with Created n => inl n | Foreign n => inr n end)
    (λ s, match s with inl n => Created n | inr n => Foreign n end)
    (λ e, match e with Created _ | Foreign _ => eq_refl end).

(** What the module writes on an element. *)
Record Element := {
  className : string;
  style : gmap string string;
  parentNode : option elem;
}.

Global Instance Element_inhabited : Inhabited Element :=
  populate {| className := ""; style := ∅; parentNode := None |}.

Definition set_className (c : string) (e : Element) : Element :=
  {| className := c; style := style e; parentNode := parentNode e |}.

Definition set_style (k v : string) (e : Element) : Element :=
  {| className := className e; style := <[k := v]> (style e);
     parentNode := parentNode e |}.

Definition set_parentNode (p : elem) (e : Element) : Element :=
  {| className := className e; style := style e; parentNode := Some p |}.

(** The options object, restricted to the keys the file reads. *)
Record Config := {
  pStylePrefix : option string;
  stylePrefix : option string;
  config_actions : option loc;
  em : option loc;
  adjustToolbar : option bool;
}.

(** [{}] *)
Definition empty_config : Config :=
  {| pStylePrefix := None; stylePrefix := None; config_actions := None;
     em := None; adjustToolbar := None |}.

(** The component view handed to [enable] and [disable]. *)
Record View := {
  el : elem;
  getChildrenContainer : elem;
}.

(** The view handed to [postRender]: [ev.model.get('Canvas').getToolsEl()]. *)
Record RenderView := {
  getToolsEl : elem;
}.

Record Classes := {
  cls_actionbar : string;
  cls_button : string;
  cls_active : string;
}.

(** The settings object built by [initRte]. *)
Record Settings := {
  set_el : elem;
  set_classes : Classes;
  set_actions : option loc;
  set_actionbar : option elem;
  set_actionbarContainer : option elem;
}.

(** Modelled from the spec: the RichTextEditor model class
    (./model/RichTextEditor) is missing from the sources.  The module "tracks a
    flat, ordered list of action descriptors": an instance holds a reference
    to the array of action records, which [getActions] returns, and the
    action bar element that [initRte] reads back. *)
Record RichTextEditor := {
  rte_el : elem;
  rte_actions : loc;
  rte_actionbar : option elem;
}.

Definition getActions (r : RichTextEditor) : loc := rte_actions r.

(** Calls that leave the file, in the order they are made. *)
Inductive HostCall :=
| CallNew (s : Settings)
| CallOn (e : elem) (event : string)
| CallAddAction (r : RichTextEditor) (action : loc) (sync : nat)
| CallRteEnable (r : RichTextEditor)
| CallRteDisable (rte : loc)
| CallCustomEnable (custom : loc) (e : elem) (rte : value)
| CallCustomDisable (custom : loc) (e : elem) (rte : value)
| CallSetTimeout (ms : nat)
| CallEmOff (em : loc) (event : string)
| CallEmOn (em : loc) (event : string)
| CallEmTrigger (em : loc) (event : string) (view : View) (rte : value).

(** ** State of a module instance *)

Record State := {
  (* let config, toolbar, actions, lastEl, globalRte *)
  config : Config;
  toolbar : option elem;
  actions : option loc;
  lastEl : option elem;
  globalRte : option RichTextEditor;
  (* fields of the returned object *)
  customRte : option loc;
  pfx : option string;
  actionbar : option elem;
  this_actions : option loc;
  (* objects, arrays and elements *)
  objs : gmap loc Action;
  arrs : gmap loc (list loc);
  document : gmap elem Element;
  created : nat;
  (* calls made so far *)
  trace : list HostCall;
}.

Definition with_config (v : Config) (s : State) : State :=
  {| config := v; toolbar := toolbar s; actions := actions s;
     lastEl := lastEl s; globalRte := globalRte s; customRte := customRte s;
     pfx := pfx s; actionbar := actionbar s; this_actions := this_actions s;
     objs := objs s; arrs := arrs s; document := document s; created := created s;
     trace := trace s |}.

Definition with_toolbar (v : option elem) (s : State) : State :=
  {| config := config s; toolbar := v; actions := actions s;
     lastEl := lastEl s; globalRte := globalRte s; customRte := customRte s;
     pfx := pfx s; actionbar := actionbar s; this_actions := this_actions s;
     objs := objs s; arrs := arrs s; document := document s; created := created s;
     trace := trace s |}.

Definition with_actions (v : option loc) (s : State) : State :=
  {| config := config s; toolbar := toolbar s; actions := v;
     lastEl := lastEl s; globalRte := globalRte s; customRte := customRte s;
     pfx := pfx s; actionbar := actionbar s; this_actions := this_actions s;
     objs := objs s; arrs := arrs s; document := document s; created := created s;
     trace := trace s |}.

Definition with_lastEl (v : option elem) (s : State) : State :=
  {| config := config s; toolbar := toolbar s; actions := actions s;
     lastEl := v; globalRte := globalRte s; customRte := customRte s;
     pfx := pfx s; actionbar := actionbar s; this_actions := this_actions s;
     objs := objs s; arrs := arrs s; document := document s; created := created s;
     trace := trace s |}.

Definition with_globalRte (v : option RichTextEditor) (s : State) : State :=
  {| config := config s; toolbar := toolbar s; actions := actions s;
     lastEl := lastEl s; globalRte := v; customRte := customRte s;
     pfx := pfx s; actionbar := actionbar s; this_actions := this_actions s;
     objs := objs s; arrs := arrs s; document := document s; created := created s;
     trace := trace s |}.

Definition with_pfx (v : option string) (s : State) : State :=
  {| config := config s; toolbar := toolbar s; actions := actions s;
     lastEl := lastEl s; globalRte := globalRte s; customRte := customRte s;
     pfx := v; actionbar := actionbar s; this_actions := this_actions s;
     objs := objs s; arrs := arrs s; document := document s; created := created s;
     trace := trace s |}.

Definition with_actionbar (v : option elem) (s : State) : State :=
  {| config := config s; toolbar := toolbar s; actions := actions s;
     lastEl := lastEl s; globalRte := globalRte s; customRte := customRte s;
     pfx := pfx s; actionbar := v; this_actions := this_actions s;
     objs := objs s; arrs := arrs s; document := document s; created := created s;
     trace := trace s |}.

Definition with_this_actions (v : option loc) (s : State) : State :=
  {| config := config s; toolbar := toolbar s; actions := actions s;
     lastEl := lastEl s; globalRte := globalRte s; customRte := customRte s;
     pfx := pfx s; actionbar := actionbar s; this_actions := v;
     objs := objs s; arrs := arrs s; document := document s; created := created s;
     trace := trace s |}.

Definition with_objs (v : gmap loc Action) (s : State) : State :=
  {| config := config s; toolbar := toolbar s; actions := actions s;
     lastEl := lastEl s; globalRte := globalRte s; customRte := customRte s;
     pfx := pfx s; actionbar := actionbar s; this_actions := this_actions s;
     objs := v; arrs := arrs s; document := document s; created := created s;
     trace := trace s |}.

Definition with_arrs (v : gmap loc (list loc)) (s : State) : State :=
  {| config := config s; toolbar := toolbar s; actions := actions s;
     lastEl := lastEl s; globalRte := globalRte s; customRte := customRte s;
     pfx := pfx s; actionbar := actionbar s; this_actions := this_actions s;
     objs := objs s; arrs := v; document := document s; created := created s;
     trace := trace s |}.

Definition with_document (v : gmap elem Element) (s : State) : State :=
  {| config := config s; toolbar := toolbar s; actions := actions s;
     lastEl := lastEl s; globalRte := globalRte s; customRte := customRte s;
     pfx := pfx s; actionbar := actionbar s; this_actions := this_actions s;
     objs := objs s; arrs := arrs s; document := v; created := created s;
     trace := trace s |}.

Definition with_created (v : nat) (s : State) : State :=
  {| config := config s; toolbar := toolbar s; actions := actions s;
     lastEl := lastEl s; globalRte := globalRte s; customRte := customRte s;
     pfx := pfx s; actionbar := actionbar s; this_actions := this_actions s;
     objs := objs s; arrs := arrs s; document := document s; created := v;
     trace := trace s |}.

Definition with_trace (v : list HostCall) (s : State) : State :=
  {| config := config s; toolbar := toolbar s; actions := actions s;
     lastEl := lastEl s; globalRte := globalRte s; customRte := customRte s;
     pfx := pfx s; actionbar := actionbar s; this_actions := this_actions s;
     objs := objs s; arrs := arrs s; document := document s; created := created s;
     trace := v |}.

(** ** Computations: a state that survives exceptions *)

Definition M (A : Type) : Type := State → completion A * State.

Definition ret {A} (a : A) : M A := λ s, (Normal a, s).

Definition throw {A} (e : error) : M A := λ s, (Throw e, s).

Definition bind {A B} (m : M A) (k : A → M B) : M B :=
  λ s, match m s with
       | (Normal a, s') => k a s'
       | (Throw e, s') => (Throw e, s')
       end.

Definition gets {A} (f : State → A) : M A := λ s, (Normal (f s), s).

Definition modify (f : State → State) : M unit := λ s, (Normal tt, f s).

Declare Scope js_scope.
Delimit Scope js_scope with js.
Notation "'let*' x := m 'in' k" := (bind m (λ x, k))
  (at level 10, x name, m at level 100, k at level 200,
   format "'[v' 'let*'  x  :=  m  'in' '/' k ']'") : js_scope.
Notation "m ;;; k" := (bind m (λ _, k))
  (at level 100, k at level 200, right associativity,
   format "'[v' m  ;;; '/' k ']'") : js_scope.
Local Open Scope js_scope.

(** Reading a variable that must hold an object: a property access on
    [undefined] raises a TypeError. *)
Definition deref {A} (f : State → option A) : M A :=
  λ s, match f s with
       | Some a => (Normal a, s)
       | None => (Throw TypeError, s)
       end.

(** [{}] *)
Definition new_object : M loc :=
  λ s, let l := fresh (dom (objs s)) in
       (Normal l, with_objs (<[l := {| name := None; props := ∅ |}]> (objs s)) s).

(** [[]] *)
Definition new_array : M loc :=
  λ s, let a := fresh (dom (arrs s)) in
       (Normal a, with_arrs (<[a := []]> (arrs s)) s).

(** [document.createElement('div')] *)
Definition createElement : M elem :=
  λ s, let e := Created (created s) in
       (Normal e,
        with_created (S (created s))
          (with_document (<[e := {| className := ""; style := ∅;
                               parentNode := None |}]> (document s)) s)).

(** [array.push(x)] *)
Definition push (a : loc) (x : loc) : M unit :=
  modify (λ s, with_arrs (<[a := (arrs s !!! a) ++ [x]]> (arrs s)) s).

Definition update_object (l : loc) (f : Action → Action) : M unit :=
  modify (λ s, with_objs (<[l := f (objs s !!! l)]> (objs s)) s).

Definition update_element (e : elem) (f : Element → Element) : M unit :=
  modify (λ s, with_document (<[e := f (document s !!! e)]> (document s)) s).

(** [action.name], read through the reference. *)
Definition action_name (s : State) (action : loc) : option string :=
  name (objs s !!! action).

(** The elements of an array, read through the reference. *)
Definition elements_of (s : State) (a : loc) : list loc := arrs s !!! a.

Section Module.

(** The collaborators.  [defaults] is the object exported by
    ./config/config.  [construct] is [new RichTextEditor(settings)] and
    [host] every other call that leaves the file; each sees the calls made
    so far, the last one being its own, and yields the result of that call
    or the exception it throws.  They do not write the objects and arrays
    of the module's state. *)
Variable defaults : Config.
Variable construct : list HostCall → completion RichTextEditor.
Variable host : list HostCall → completion value.

Definition call_with {A} (oracle : list HostCall → completion A)
    (c : HostCall) : M A :=
  λ s, let t := trace s ++ [c] in (oracle t, with_trace t s).

Definition call (c : HostCall) : M value := call_with host c.

(** *** Lifecycle hooks *)

(** [for (let name in defaults) if (!(name in config)) config[name] =
    defaults[name]] *)
Definition or_default {A} (own dflt : option A) : option A :=
  match own with Some v => Some v | None => dflt end.

Definition merge_defaults (c : Config) : Config :=
  {| pStylePrefix := or_default (pStylePrefix c) (pStylePrefix defaults);
     stylePrefix := or_default (stylePrefix c) (stylePrefix defaults);
     config_actions := or_default (config_actions c) (config_actions defaults);
     em := or_default (em c) (em defaults);
     adjustToolbar := or_default (adjustToolbar c) (adjustToolbar defaults) |}.

Definition set_stylePrefix (v : option string) (c : Config) : Config :=
  {| pStylePrefix := pStylePrefix c; stylePrefix := v;
     config_actions := config_actions c; em := em c;
     adjustToolbar := adjustToolbar c |}.

Definition initRte (el : elem) : M RichTextEditor :=
  let* pfx := gets pfx in
  let* actionbarContainer := gets toolbar in
  let* actionbar := gets actionbar in
  let* actions := gets (λ s, or_default (this_actions s)
                               (config_actions (config s))) in
  let classes :=
    {| cls_actionbar := to_str pfx +:+ "actionbar";
       cls_button := to_str pfx +:+ "action";
       cls_active := to_str pfx +:+ "active" |} in
  let* rte := call_with construct
                (CallNew {| set_el := el; set_classes := classes;
                            set_actions := actions;
                            set_actionbar := actionbar;
                            set_actionbarContainer := actionbarContainer |}) in
  match rte_actionbar rte with
  | Some b => modify (with_actionbar (Some b))
  | None => ret tt
  end ;;;
  (* an array reference is truthy *)
  modify (with_this_actions (Some (rte_actions rte))) ;;;
  ret rte.

Definition init (opts : option Config) : M unit :=
  modify (with_config (merge_defaults (default empty_config opts))) ;;;
  let* ppfx := gets (λ s, pStylePrefix (config s)) in
  (if truthy_str ppfx
   then modify (λ s, with_config
                       (set_stylePrefix
                          (Some (to_str ppfx +:+ to_str (stylePrefix (config s))))
                          (config s)) s)
   else ret tt) ;;;
  let* stylePrefix := gets (λ s, stylePrefix (config s)) in
  modify (with_pfx stylePrefix) ;;;
  let* configured := gets (λ s, config_actions (config s)) in
  let* a := match configured with
            | Some a => ret a
            | None => new_array
            end in
  modify (with_actions (Some a)) ;;;
  let* t := createElement in
  modify (with_toolbar (Some t)) ;;;
  let* t := deref toolbar in
  update_element t (set_className (to_str ppfx +:+ "rte-toolbar")) ;;;
  let* e := createElement in
  let* rte := initRte e in
  modify (with_globalRte (Some rte)) ;;;
  let* t := deref toolbar in
  call (CallOn t "mousedown") ;;;
  ret tt.

Definition postRender (ev : RenderView) : M unit :=
  let canvas := ev in
  let* t := deref toolbar in
  update_element t (set_style "pointerEvents" "all") ;;;
  let* t := deref toolbar in
  update_element t (set_parentNode (getToolsEl canvas)).

Definition enable (view : View) (rte : value) : M value :=
  modify (with_lastEl (Some (el view))) ;;;
  let* em := gets (λ s, em (config s)) in
  let el := getChildrenContainer view in
  let* customRte := gets customRte in
  let* t := deref toolbar in
  update_element t (set_style "display" "") ;;;
  let* rte := match customRte with
              | Some c => call (CallCustomEnable c el rte)
              | None => let* r := initRte el in call (CallRteEnable r)
              end in
  match em with
  | Some em =>
      let event := "change:canvasOffset canvasScroll" in
      call (CallSetTimeout 0) ;;;
      call (CallEmOff em event) ;;;
      call (CallEmOn em event) ;;;
      call (CallEmTrigger em "rte:enable" view rte) ;;;
      ret tt
  | None => ret tt
  end ;;;
  ret rte.

Definition disable (view : View) (rte : value) : M unit :=
  let* em := gets (λ s, em (config s)) in
  let* customRte := gets customRte in
  let* style := deref toolbar in
  let el := getChildrenContainer view in
  match customRte with
  | Some c => call (CallCustomDisable c el rte)
  | None =>
      match rte with
      | VRef r => call (CallRteDisable r)
      | _ => throw TypeError
      end
  end ;;;
  update_element style (set_style "display" "none") ;;;
  (* style.top = 0; style.left = 0: the number, kept as its text *)
  update_element style (set_style "top" "0") ;;;
  update_element style (set_style "left" "0") ;;;
  match em with
  | Some em => call (CallEmTrigger em "rte:disable" view rte) ;;; ret tt
  | None => ret tt
  end.

(** *** The public accessors *)

(** The [action] parameter of [add]: the default [{}] replaces an omitted
    argument only; the file is an ECMAScript module, hence strict code, and
    [action.name = name] raises on [null] and on a primitive. *)
Definition add (name : string) (action : value) : M unit :=
  let* action := match action with
                 | VUndefined => let* l := new_object in ret (VRef l)
                 | _ => ret action
                 end in
  let* l := match action with
            | VRef l => update_object l (set_name name) ;;; ret l
            | _ => throw TypeError
            end in
  let* rte := deref globalRte in
  push (getActions rte) l ;;;
  let* rte := deref globalRte in
  call (CallAddAction rte l 1) ;;;
  ret tt.

Definition get (name : string) : M value :=
  let* rte := deref globalRte in
  let* s := gets id in
  ret (foldl (λ result action,
                if name_eq (action_name s action) name
                then VRef action else result)
             VUndefined (elements_of s (getActions rte))).

Definition getAll : M loc :=
  let* rte := deref globalRte in
  ret (getActions rte).

Definition getToolbarEl : M (option elem) := gets toolbar.

(** *** Sequences of public operations *)

Inductive Op :=
| OpAdd (name : string) (action : value)
| OpGet (name : string)
| OpGetAll
| OpGetToolbarEl
| OpEnable (view : View) (rte : value)
| OpDisable (view : View) (rte : value)
| OpPostRender (ev : RenderView).

(** The state an operation leaves behind, whether it returns or raises. *)
Definition exec (o : Op) (s : State) : State :=
  match o with
  | OpAdd name action => (add name action s).2
  | OpGet name => (get name s).2
  | OpGetAll => (getAll s).2
  | OpGetToolbarEl => (getToolbarEl s).2
  | OpEnable view rte => (enable view rte s).2
  | OpDisable view rte => (disable view rte s).2
  | OpPostRender ev => (postRender ev s).2
  end.

Definition exec_all (ops : list Op) (s : State) : State :=
  foldl (λ s o, exec o s) s ops.

(** The states reached after [init]: [init] has returned, and public
    operations have been called since. *)
Inductive after_init : State → Prop :=
| after_init_intro (opts : option Config) (s0 s : State) :
    init opts s0 = (Normal tt, s) → after_init s
| after_init_step (o : Op) (s : State) :
    after_init s → after_init (exec o s).

End Module.

(** ** Auxiliary definitions for the statements *)

(** The body of the [forEach] of [get], as a left fold. *)
Abbreviation scan s name :=
  (foldl (λ result action,
            if name_eq (action_name s action) name
            then VRef action else result)).

(** The state in which [add] leaves the store once [l] is the object to
    register. *)
Definition added (n : string) (l : loc) (rte : RichTextEditor) (s : State) :
    State :=
  with_trace (trace s ++ [CallAddAction rte l 1])
    (with_arrs (<[getActions rte := elements_of s (getActions rte) ++ [l]]>
                  (arrs s))
       (with_objs (<[l := set_name n (objs s !!! l)]> (objs s)) s)).

Definition finish (c : completion value) : completion unit :=
  match c with Normal _ => Normal tt | Throw e => Throw e end.

(** [frame s s'] relates a state to a later one: the variables [toolbar] and
    [globalRte] still hold what they held, no element has been created, every
    array has only grown at its end, every object that existed still exists,
    and no element other than the toolbar has been written. *)
Record frame (s s' : State) : Prop := {
  frame_toolbar : toolbar s' = toolbar s;
  frame_globalRte : globalRte s' = globalRte s;
  frame_created : created s' = created s;
  frame_arrs : ∀ a, elements_of s a `prefix_of` elements_of s' a;
  frame_objs : ∀ l, is_Some (objs s !! l) → is_Some (objs s' !! l);
  frame_document :
    ∀ e, toolbar s ≠ Some e → document s' !! e = document s !! e;
}.


(** *** A concrete editor, to run the module on *)

Module Sample.

Definition defaults : Config :=
  {| pStylePrefix := None; stylePrefix := Some "rte-";
     config_actions := None; em := None; adjustToolbar := Some true |}.

(** A model class that keeps the array it is given, or else its own. *)
Definition construct (t : list HostCall) : completion RichTextEditor :=
  match last t with
  | Some (CallNew st) =>
      Normal {| rte_el := set_el st;
                rte_actions := default 7%positive (set_actions st);
                rte_actionbar := Some (Foreign 0) |}
  | _ => Throw HostError
  end.

Definition host (t : list HostCall) : completion value := Normal VUndefined.

Definition opts : Config :=
  {| pStylePrefix := Some "gjs-"; stylePrefix := None;
     config_actions := None; em := Some 3%positive; adjustToolbar := None |}.

(** The module before [init]. *)
Definition created_module : State :=
  {| config := empty_config; toolbar := None; actions := None;
     lastEl := None; globalRte := None; customRte := None; pfx := None;
     actionbar := None; this_actions := None; objs := ∅; arrs := ∅;
     document := ∅; created := 0; trace := [] |}.

Definition initialised : State :=
  (init defaults construct host (Some opts) created_module).2.

(** Two objects of the caller, [{icon: '<b>B</b>'}] and
    [{name: 'strong', icon: 'S'}], in a module initialised the same way. *)
Definition bold : loc := 1%positive.
Definition strong : loc := 2%positive.

Definition created_with_objects : State :=
  with_objs
    (<[bold := {| name := None; props := {["icon" := VStr "<b>B</b>"]} |}]>
       (<[strong := {| name := Some "strong";
                       props := {["icon" := VStr "S"]} |}]> ∅))
    created_module.

Definition with_objects : State :=
  (init defaults construct host (Some opts) created_with_objects).2.

Definition view : View :=
  {| el := Foreign 5; getChildrenContainer := Foreign 6 |}.

(** [add('bold', bold); add('bold', strong)] *)
Definition two_bold : State :=
  exec_all construct host
    [OpAdd "bold" (VRef bold); OpAdd "bold" (VRef strong)] with_objects.

End Sample.

(** ** Further definitions *)

Definition is_add (o : Op) : bool :=
  match o with OpAdd _ _ => true | _ => false end.

(** An [add] whose argument passes [action.name = name]: an object, or
    none. *)
Definition registers (o : Op) : bool :=
  match o with
  | OpAdd _ VUndefined | OpAdd _ (VRef _) => true
  | _ => false
  end.

(** The settings object that [initRte(el)] builds in state [s]. *)
Definition settings_for (el : elem) (s : State) : Settings :=
  {| set_el := el;
     set_classes :=
       {| cls_actionbar := to_str (pfx s) +:+ "actionbar";
          cls_button := to_str (pfx s) +:+ "action";
          cls_active := to_str (pfx s) +:+ "active" |};
     set_actions := or_default (this_actions s) (config_actions (config s));
     set_actionbar := actionbar s;
     set_actionbarContainer := toolbar s |}.

(** A model class that keeps the array of actions it is given. *)
Definition keeps_actions
    (construct : list HostCall → completion RichTextEditor) : Prop :=
  ∀ t st r a,
    construct (t ++ [CallNew st]) = Normal r →
    set_actions st = Some a → rte_actions r = a.






(** More of the sample editor. *)
Module Sample2.


(** A host whose [addAction] and whose editors' [disable] throw. *)
Definition failing_host (t : list HostCall) : completion value :=
  match last t with
  | Some (CallAddAction _ _ _) => Throw HostError
  | Some (CallRteDisable _) => Throw HostError
  | Some (CallCustomDisable _ _ _) => Throw HostError
  | _ => Normal VUndefined
  end.

(** A model class whose constructor throws. *)
Definition failing_construct (t : list HostCall) :
    completion RichTextEditor := Throw HostError.

(** The initialised module after [add('bold', bold)]. *)
Definition one_bold : State :=
  exec_all Sample.construct Sample.host
    [OpAdd "bold" (VRef Sample.bold)] Sample.with_objects.

(** The initialised module with a custom editor set by the host. *)
Definition with_custom : State :=
  let s := Sample.initialised in
  {| config := config s; toolbar := toolbar s; actions := actions s;
     lastEl := lastEl s; globalRte := globalRte s;
     customRte := Some 9%positive;
     pfx := pfx s; actionbar := actionbar s; this_actions := this_actions s;
     objs := objs s; arrs := arrs s; document := document s;
     created := created s; trace := trace s |}.

(** Options that name an array of actions, and a module whose store holds
    that array with one action in it. *)
Definition opts_actions : Config :=
  {| pStylePrefix := None; stylePrefix := None;
     config_actions := Some 5%positive; em := None; adjustToolbar := None |}.

Definition created_with_actions : State :=
  with_arrs (<[5%positive := [Sample.strong]]> ∅) Sample.created_with_objects.

End Sample2.


(** ** Properties *)

Lemma name_eq_spec (field : option string) (n : string) :
  name_eq field n = true ↔ field = Some n.
Proof.
  destruct field as [s|]; simpl.
  - rewrite bool_decide_eq_true. split; congruence.
  - split; discriminate.
Qed.

Lemma scan_no_match s n (ls : list loc) (r : value) :
  (∀ l, l ∈ ls → action_name s l ≠ Some n) → scan s n r ls = r.
Proof.
  revert r. induction ls as [|l ls IH]; intros r Hno; [done|].
  simpl. destruct (name_eq (action_name s l) n) eqn:E.
  - apply name_eq_spec in E. destruct (Hno l); [left | done].
  - apply IH. intros l' Hl'. apply Hno. by right.
Qed.

Lemma scan_last_match s n (pre post : list loc) (l : loc) (r : value) :
  action_name s l = Some n →
  (∀ l', l' ∈ post → action_name s l' ≠ Some n) →
  scan s n r (pre ++ l :: post) = VRef l.
Proof.
  intros Hl Hpost. rewrite foldl_app. simpl.
  apply name_eq_spec in Hl. rewrite Hl. by apply scan_no_match.
Qed.

(** Either no element matches, or the list splits around its last matching
    element. *)
Lemma scan_cases s n (ls : list loc) :
  (∀ l, l ∈ ls → action_name s l ≠ Some n) ∨
  (∃ pre l post, ls = pre ++ l :: post ∧ action_name s l = Some n ∧
                 ∀ l', l' ∈ post → action_name s l' ≠ Some n).
Proof.
  induction ls as [|l ls IH] using rev_ind.
  - left. intros l Hl. by apply elem_of_nil in Hl.
  - destruct (name_eq (action_name s l) n) eqn:E.
    + right. exists ls, l, []. apply name_eq_spec in E.
      split_and!; [done | done |]. intros l' Hl'. by apply elem_of_nil in Hl'.
    + assert (action_name s l ≠ Some n) as Hne.
      { intros Heq. apply name_eq_spec in Heq. congruence. }
      destruct IH as [Hno | (pre & l0 & post & -> & Hl0 & Hpost)].
      * left. intros l' [Hl' | Hl']%elem_of_app; [by apply Hno|].
        apply list_elem_of_singleton in Hl'. by subst.
      * right. exists pre, l0, (post ++ [l]). rewrite <- app_assoc. simpl.
        split_and!; [done | done |].
        intros l' [Hl' | Hl']%elem_of_app; [by apply Hpost|].
        apply list_elem_of_singleton in Hl'. by subst.
Qed.

Lemma frame_refl (s : State) : frame s s.
Proof. by split. Qed.

Lemma frame_trans (s1 s2 s3 : State) :
  frame s1 s2 → frame s2 s3 → frame s1 s3.
Proof.
  intros [Ht Hg Hc Ha Ho Hd] [Ht' Hg' Hc' Ha' Ho' Hd']. split.
  - congruence.
  - congruence.
  - congruence.
  - intros a. etrans; [apply Ha | apply Ha'].
  - auto.
  - intros e He. rewrite Hd', Hd; [done | done | by rewrite Ht].
Qed.

Lemma elements_of_push (s : State) (a a' x : loc) (m : gmap loc (list loc)) :
  m = arrs s →
  elements_of s a' `prefix_of` <[a := elements_of s a ++ [x]]> m !!! a'.
Proof.
  intros ->. destruct (decide (a = a')) as [->|Hne].
  - rewrite lookup_total_insert_eq. by apply prefix_app_r.
  - by rewrite lookup_total_insert_ne.
Qed.

(** What [added] does to the store. *)
Lemma added_elements (n : string) (l : loc) (rte : RichTextEditor) (s : State) :
  elements_of (added n l rte s) (getActions rte) =
  elements_of s (getActions rte) ++ [l].
Proof. unfold added, elements_of; simpl. by rewrite lookup_total_insert_eq. Qed.

Lemma added_object (n : string) (l : loc) (rte : RichTextEditor) (s : State) :
  objs (added n l rte s) !! l = Some (set_name n (objs s !!! l)).
Proof. unfold added; simpl. by rewrite lookup_insert_eq. Qed.

Lemma added_other (n : string) (l l' : loc) (rte : RichTextEditor) (s : State) :
  l' ≠ l → objs (added n l rte s) !! l' = objs s !! l'.
Proof. intros Hne. unfold added; simpl. by rewrite lookup_insert_ne. Qed.

Lemma added_name (n : string) (l : loc) (rte : RichTextEditor) (s : State) :
  action_name (added n l rte s) l = Some n.
Proof.
  unfold action_name. by rewrite (lookup_total_correct _ _ _ (added_object n l rte s)).
Qed.

Lemma added_name_other (n : string) (l l' : loc) (rte : RichTextEditor) (s : State) :
  l' ≠ l → action_name (added n l rte s) l' = action_name s l'.
Proof.
  intros Hne. unfold action_name.
  by rewrite !lookup_total_alt, (added_other n l l' rte s Hne).
Qed.

Lemma added_globalRte (n : string) (l : loc) (rte : RichTextEditor) (s : State) :
  globalRte (added n l rte s) = globalRte s.
Proof. done. Qed.

Ltac destruct_matches :=
  repeat match goal with
         | |- context [match ?x with _ => _ end] =>
             lazymatch x with
             | context [match _ with _ => _ end] => fail
             | _ => destruct x eqn:?
             end
         end.

Section Properties.

Variable defaults : Config.
Variable construct : list HostCall → completion RichTextEditor.
Variable host : list HostCall → completion value.

(** *** What the accessors compute *)

Lemma getAll_eq (s : State) :
  getAll s = match globalRte s with
             | Some rte => (Normal (getActions rte), s)
             | None => (Throw TypeError, s)
             end.
Proof. unfold getAll, bind, deref, ret. by destruct (globalRte s). Qed.

Lemma get_eq (n : string) (s : State) :
  get n s = match globalRte s with
            | Some rte =>
                (Normal (scan s n VUndefined (elements_of s (getActions rte))), s)
            | None => (Throw TypeError, s)
            end.
Proof. unfold get, bind, deref, gets, ret. by destruct (globalRte s). Qed.

Lemma add_object (n : string) (l : loc) (rte : RichTextEditor) (s : State) :
  globalRte s = Some rte →
  add host n (VRef l) s =
    (finish (host (trace s ++ [CallAddAction rte l 1])), added n l rte s).
Proof.
  intros Hrte. unfold add, bind, ret, update_object, modify, deref, push,
    call, call_with, added, elements_of.
  repeat (progress (simpl; rewrite ?Hrte)). by destruct (host _).
Qed.

Lemma add_omitted (n : string) (rte : RichTextEditor) (s : State) :
  globalRte s = Some rte →
  let l := fresh (dom (objs s)) in
  let s0 := with_objs (<[l := {| name := None; props := ∅ |}]> (objs s)) s in
  add host n VUndefined s =
    (finish (host (trace s ++ [CallAddAction rte l 1])), added n l rte s0).
Proof.
  intros Hrte l s0. unfold add, bind, ret, new_object, update_object, modify,
    deref, push, call, call_with, added, elements_of.
  repeat (progress (simpl; rewrite ?Hrte)). by destruct (host _).
Qed.

(** A call of [add] that returns was given an object or nothing, on an
    initialised module. *)
Lemma add_normal_inv (n : string) (action : value) (s s' : State) :
  add host n action s = (Normal tt, s') →
  ∃ rte, globalRte s = Some rte ∧
    ((∃ l, action = VRef l ∧ s' = added n l rte s) ∨
     (action = VUndefined ∧
      s' = added n (fresh (dom (objs s))) rte
             (with_objs (<[fresh (dom (objs s)) :=
                             {| name := None; props := ∅ |}]> (objs s)) s))).
Proof.
  intros Hadd. destruct (globalRte s) as [rte|] eqn:Hrte.
  - exists rte. split; [done|]. destruct action as [| |b|str|l].
    + right. split; [done|]. rewrite (add_omitted n rte s Hrte) in Hadd.
      by injection Hadd as _ <-.
    + discriminate.
    + discriminate.
    + discriminate.
    + left. exists l. split; [done|]. rewrite (add_object n l rte s Hrte) in Hadd.
      by injection Hadd as _ <-.
  - exfalso. revert Hadd.
    unfold add, bind, ret, new_object, update_object, modify, deref, throw.
    destruct action; repeat (progress (simpl; rewrite ?Hrte)); discriminate.
Qed.

(** *** What no public operation changes *)

Ltac unfold_ops :=
  unfold add, get, getAll, getToolbarEl, enable, disable, postRender,
    initRte, bind, ret, throw, gets, modify, deref, new_object, push,
    update_object, update_element, call, call_with.

Ltac frame_clauses :=
  split; simpl;
  [ done | done | done
  | intros ?; unfold elements_of; simpl;
    first [ done | by apply elements_of_push ]
  | intros l' Hl'; repeat (rewrite lookup_insert; case_decide); auto
  | intros e' He';
    repeat (rewrite lookup_insert_ne; [|congruence]); done ].

Lemma exec_frame (o : Op) (s : State) :
  frame s (exec construct host o s).
Proof.
  destruct o; simpl; unfold_ops; simpl; destruct_matches; simpl;
    frame_clauses.
Qed.

Lemma exec_all_frame (ops : list Op) (s : State) :
  frame s (exec_all construct host ops s).
Proof.
  revert s. induction ops as [|o ops IH]; intros s; simpl.
  - apply frame_refl.
  - eapply frame_trans; [apply exec_frame | apply IH].
Qed.

(** *** States reached after [init] *)

Lemma init_normal (opts : option Config) (s0 s : State) :
  init defaults construct host opts s0 = (Normal tt, s) →
  toolbar s = Some (Created (created s0)) ∧
  created s = S (S (created s0)) ∧
  is_Some (globalRte s).
Proof.
  unfold init, initRte, bind, ret, throw, gets, modify, deref, new_array,
    createElement, update_element, call, call_with.
  simpl. destruct_matches; simpl; intros [= <-]; simpl; eauto.
Qed.

Lemma after_init_exec_all (ops : list Op) (s : State) :
  after_init defaults construct host s →
  after_init defaults construct host (exec_all construct host ops s).
Proof.
  revert s. induction ops as [|o ops IH]; intros s Hs; simpl; [done|].
  apply IH. by apply after_init_step.
Qed.

Lemma after_init_initialised (s : State) :
  after_init defaults construct host s →
  is_Some (toolbar s) ∧ is_Some (globalRte s).
Proof.
  induction 1 as [opts s0 s Hinit | o s _ [Ht Hg]].
  - apply init_normal in Hinit as (Ht & _ & Hg). rewrite Ht. eauto.
  - destruct (exec_frame o s) as [-> -> _ _ _ _]. done.
Qed.

Lemma getAll_normal (s : State) (a : loc) :
  getAll s = (Normal a, s) ↔
  ∃ rte, globalRte s = Some rte ∧ getActions rte = a.
Proof.
  rewrite getAll_eq. destruct (globalRte s) as [rte|]; split.
  - intros [= <-]. eauto.
  - by intros (rte' & [= <-] & <-).
  - discriminate.
  - by intros (rte' & [=] & _).
Qed.

Lemma after_init_getAll (s : State) :
  after_init defaults construct host s → ∃ a, getAll s = (Normal a, s).
Proof.
  intros [_ [rte Hrte]]%after_init_initialised.
  exists (getActions rte). apply getAll_normal. eauto.
Qed.

(** The state [add] leaves behind, whether or not [addAction] returns. *)
Lemma add_object_state (n : string) (l : loc) (rte : RichTextEditor) (s : State) :
  globalRte s = Some rte → (add host n (VRef l) s).2 = added n l rte s.
Proof. intros Hrte. by rewrite (add_object n l rte s Hrte). Qed.

Lemma add_omitted_state (n : string) (rte : RichTextEditor) (s : State) :
  globalRte s = Some rte →
  (add host n VUndefined s).2 =
    added n (fresh (dom (objs s))) rte
      (with_objs (<[fresh (dom (objs s)) := {| name := None; props := ∅ |}]>
                    (objs s)) s).
Proof. intros Hrte. by rewrite (add_omitted n rte s Hrte). Qed.

(** What the hooks write on the toolbar element. *)
Lemma postRender_toolbar (ev : RenderView) (t : elem) (s : State) :
  toolbar s = Some t →
  postRender ev s =
    (Normal tt,
     with_document
       (<[t := set_parentNode (getToolsEl ev)
                 (set_style "pointerEvents" "all" (document s !!! t))]>
          (<[t := set_style "pointerEvents" "all" (document s !!! t)]>
             (document s))) s).
Proof.
  intros Ht. unfold postRender, bind, deref, update_element, modify.
  repeat (progress (simpl; rewrite ?Ht)). by rewrite lookup_total_insert_eq.
Qed.

Lemma enable_toolbar (view : View) (rte : value) (t : elem) (s : State) :
  toolbar s = Some t →
  document (enable construct host view rte s).2 =
    <[t := set_style "display" "" (document s !!! t)]> (document s).
Proof.
  intros Ht. unfold enable, initRte, bind, ret, gets, deref, update_element,
    modify, call, call_with.
  repeat (progress (simpl; rewrite ?Ht)). destruct_matches; done.
Qed.

Lemma disable_toolbar (view : View) (rte : value) (t : elem) (s s' : State) :
  toolbar s = Some t →
  disable host view rte s = (Normal tt, s') →
  style (document s' !!! t) =
    <["left" := "0"]> (<["top" := "0"]> (<["display" := "none"]>
      (style (document s !!! t)))).
Proof.
  intros Ht. unfold disable, bind, ret, throw, gets, deref, update_element,
    modify, call, call_with.
  repeat (progress (simpl; rewrite ?Ht)).
  destruct_matches; intros [= <-]; simpl;
    by rewrite !lookup_total_insert_eq.
Qed.

(** An object keeps its properties through every operation that is not an
    [add] of that object. *)
Lemma exec_keeps_object (o : Op) (l : loc) (s : State) :
  is_Some (objs s !! l) →
  (∀ n, o ≠ OpAdd n (VRef l)) →
  objs (exec construct host o s) !! l = objs s !! l.
Proof.
  intros Hl Ho.
  assert (fresh (dom (objs s)) ≠ l) as Hfresh.
  { intros <-. by apply (is_fresh (dom (objs s))), elem_of_dom. }
  destruct o as [n action| | | | | |]; simpl.
  - destruct action as [| |b|str|l0];
      unfold_ops; simpl; destruct_matches; simpl;
      rewrite ?lookup_insert_ne; try done.
    all: intros ->; by destruct (Ho n).
  - unfold_ops; simpl; by destruct_matches.
  - unfold_ops; simpl; by destruct_matches.
  - done.
  - unfold_ops; simpl; by destruct_matches.
  - unfold_ops; simpl; by destruct_matches.
  - unfold_ops; simpl; by destruct_matches.
Qed.

Lemma exec_all_keeps_object (ops : list Op) (l : loc) (s : State) :
  is_Some (objs s !! l) →
  Forall (λ o, ∀ n, o ≠ OpAdd n (VRef l)) ops →
  objs (exec_all construct host ops s) !! l = objs s !! l.
Proof.
  revert s. induction ops as [|o ops IH]; intros s Hl Hops; simpl; [done|].
  apply Forall_cons in Hops as [Ho Hops].
  pose proof (exec_keeps_object o l s Hl Ho) as Heq.
  rewrite IH; [done | by rewrite Heq | done].
Qed.

(** The toolbar element stays in the document, under its class name. *)
Lemma exec_toolbar_element (o : Op) (t : elem) (s : State) :
  toolbar s = Some t →
  is_Some (document s !! t) →
  is_Some (document (exec construct host o s) !! t) ∧
  className (document (exec construct host o s) !!! t) =
    className (document s !!! t).
Proof.
  intros Ht Hd. destruct o; simpl; unfold_ops;
    repeat (progress (simpl; rewrite ?Ht)); destruct_matches; simpl;
    rewrite ?lookup_insert_eq, ?lookup_total_insert_eq; simpl; eauto.
Qed.

Lemma exec_all_toolbar_element (ops : list Op) (t : elem) (s : State) :
  toolbar s = Some t →
  is_Some (document s !! t) →
  is_Some (document (exec_all construct host ops s) !! t) ∧
  className (document (exec_all construct host ops s) !!! t) =
    className (document s !!! t).
Proof.
  revert s. induction ops as [|o ops IH]; intros s Ht Hd; simpl; [done|].
  destruct (exec_toolbar_element o t s Ht Hd) as [Hd' Hc].
  destruct (exec_frame o s) as [Ht' _ _ _ _ _].
  destruct (IH (exec construct host o s)) as [Hd'' Hc'];
    [by rewrite Ht' | done |].
  split; [done | by rewrite Hc'].
Qed.

(** The element that [init] makes the toolbar: a new [div] with its class
    name. *)
Lemma init_toolbar_element (opts : option Config) (s0 s : State) :
  init defaults construct host opts s0 = (Normal tt, s) →
  document s !! Created (created s0) =
    Some {| className := to_str (pStylePrefix (config s)) +:+ "rte-toolbar";
            style := ∅; parentNode := None |}.
Proof.
  unfold init, initRte, bind, ret, throw, gets, modify, deref, new_array,
    createElement, update_element, call, call_with.
  simpl. destruct_matches; simpl; intros [= <-]; simpl;
    (rewrite lookup_insert_ne by (intros [=]; lia));
    by rewrite lookup_insert_eq, lookup_total_insert_eq.
Qed.

(** [disable] returns when its collaborators do and it is given an editor. *)
Lemma disable_returns (view : View) (r : loc) (t : elem) (s : State) :
  toolbar s = Some t →
  (∀ tr, is_normal (host tr) = true) →
  ∃ s', disable host view (VRef r) s = (Normal tt, s').
Proof.
  intros Ht Hhost. unfold disable, bind, ret, throw, gets, deref,
    update_element, modify, call, call_with.
  repeat (progress (simpl; rewrite ?Ht)).
  destruct_matches; eauto;
    match goal with
    | H : host ?tr = Throw _ |- _ =>
        specialize (Hhost tr); rewrite H in Hhost; discriminate
    end.
Qed.




(** *** The claims *)

(** C1. An action added with [add(name, action)] appears in the list that
    [getAll()] returns afterwards: right after the call (take no further
    operation) and after any further public operations. *)
Theorem added_action_in_getAll
    (n : string) (l a : loc) (s : State) (ops : list Op) :
  getAll s = (Normal a, s) →
  let s' := exec_all construct host ops (add host n (VRef l) s).2 in
  getAll s' = (Normal a, s') ∧ l ∈ elements_of s' a.
Proof.
  intros (rte & Hrte & <-)%getAll_normal s'. subst s'.
  rewrite (add_object_state n l rte s Hrte).
  destruct (exec_all_frame ops (added n l rte s)) as [_ Hg _ Ha _ _].
  split.
  - apply getAll_normal. exists rte. by rewrite Hg.
  - eapply elem_of_prefix; [|apply Ha]. rewrite added_elements.
    apply elem_of_app. right. by apply list_elem_of_singleton.
Qed.

(** C2. [get(name)] returns an action of the list whose name is [name] when
    the list holds one, and [undefined] when it holds none; it changes
    nothing. *)
Theorem get_by_name (n : string) (a : loc) (s : State) :
  getAll s = (Normal a, s) →
  ((∃ l, l ∈ elements_of s a ∧ action_name s l = Some n) →
   ∃ l, get n s = (Normal (VRef l), s) ∧
        l ∈ elements_of s a ∧ action_name s l = Some n) ∧
  ((∀ l, l ∈ elements_of s a → action_name s l ≠ Some n) →
   get n s = (Normal VUndefined, s)).
Proof.
  intros (rte & Hrte & <-)%getAll_normal. rewrite get_eq, Hrte.
  destruct (scan_cases s n (elements_of s (getActions rte)))
    as [Hno | (pre & l & post & Heq & Hl & Hpost)].
  - split.
    + intros (l & Hin & Hl). by destruct (Hno l Hin).
    + intros _. by rewrite scan_no_match.
  - split.
    + intros _. exists l. rewrite Heq. split_and!.
      * by rewrite scan_last_match.
      * apply elem_of_app. right. by left.
      * done.
    + intros Hno. destruct (Hno l); [|done].
      rewrite Heq. apply elem_of_app. right. by left.
Qed.

(** C3. [add(name, action)] appends: the list of [getAll()] after the call
    is the list before it followed by the action (the caller's object, or the
    new one when the argument is omitted), whether or not the list already
    holds an action of that name, in which case both are in it. *)
Theorem add_appends (n : string) (a : loc) (s : State) :
  getAll s = (Normal a, s) →
  (∀ l, getAll (add host n (VRef l) s).2 =
          (Normal a, (add host n (VRef l) s).2) ∧
        elements_of (add host n (VRef l) s).2 a = elements_of s a ++ [l]) ∧
  (∃ l, objs s !! l = None ∧
        getAll (add host n VUndefined s).2 =
          (Normal a, (add host n VUndefined s).2) ∧
        elements_of (add host n VUndefined s).2 a = elements_of s a ++ [l]) ∧
  (∀ l l0, l0 ∈ elements_of s a → action_name s l0 = Some n →
           l0 ∈ elements_of (add host n (VRef l) s).2 a ∧
           l ∈ elements_of (add host n (VRef l) s).2 a ∧
           action_name (add host n (VRef l) s).2 l0 = Some n ∧
           action_name (add host n (VRef l) s).2 l = Some n).
Proof.
  intros (rte & Hrte & <-)%getAll_normal. split_and!.
  - intros l. rewrite (add_object_state n l rte s Hrte), added_elements.
    split; [|done]. apply getAll_normal. eauto.
  - exists (fresh (dom (objs s))).
    rewrite (add_omitted_state n rte s Hrte), added_elements. split_and!.
    + apply not_elem_of_dom, is_fresh.
    + apply getAll_normal. eauto.
    + done.
  - intros l l0 Hin Hn0.
    rewrite (add_object_state n l rte s Hrte), added_elements. split_and!.
    + apply elem_of_app. by left.
    + apply elem_of_app. right. by apply list_elem_of_singleton.
    + destruct (decide (l0 = l)) as [->|Hne]; [apply added_name|].
      by rewrite added_name_other.
    + apply added_name.
Qed.

(** C4. After [init], no sequence of public operations removes an action:
    between any two points of the sequence the list of [getAll()] is the same
    array, it has not become shorter, and every action it held is still in
    it. *)
Theorem actions_never_removed (s : State) (ops1 ops2 : list Op) :
  after_init defaults construct host s →
  let s1 := exec_all construct host ops1 s in
  let s2 := exec_all construct host ops2 s1 in
  ∃ a,
    getAll s1 = (Normal a, s1) ∧ getAll s2 = (Normal a, s2) ∧
    (length (elements_of s1 a) ≤ length (elements_of s2 a))%nat ∧
    ∀ l, l ∈ elements_of s1 a → l ∈ elements_of s2 a.
Proof.
  intros Hs s1 s2.
  assert (after_init defaults construct host s1) as Hs1
    by by apply after_init_exec_all.
  destruct (after_init_getAll s1 Hs1) as (a & Hall).
  destruct (exec_all_frame ops2 s1) as [_ Hg _ Ha _ _].
  exists a. split_and!.
  - done.
  - apply getAll_normal in Hall as (rte & Hrte & <-).
    apply getAll_normal. exists rte. subst s2. by rewrite Hg.
  - apply prefix_length, Ha.
  - intros l Hl. eapply elem_of_prefix; [done | apply Ha].
Qed.

(** C5, amended. Right after [add(name, action)] the record that the call
    has put in the list has [name] for its name, whatever name the object
    had before, if any; it keeps that name through every later public
    operation other than an [add] of the same object, which renames it. *)
Theorem stored_record_carries_name (n : string) (a : loc) (s : State) :
  getAll s = (Normal a, s) →
  (∀ l, last (elements_of (add host n (VRef l) s).2 a) = Some l ∧
        name (objs (add host n (VRef l) s).2 !!! l) = Some n) ∧
  (∃ l, last (elements_of (add host n VUndefined s).2 a) = Some l ∧
        name (objs (add host n VUndefined s).2 !!! l) = Some n) ∧
  (∀ l ops,
     Forall (λ o, ∀ n', o ≠ OpAdd n' (VRef l)) ops →
     name (objs (exec_all construct host ops (add host n (VRef l) s).2) !!! l) =
       Some n).
Proof.
  intros (rte & Hrte & <-)%getAll_normal. split_and!.
  - intros l. rewrite (add_object_state n l rte s Hrte), added_elements.
    split; [apply last_snoc | apply added_name].
  - exists (fresh (dom (objs s))).
    rewrite (add_omitted_state n rte s Hrte), added_elements.
    split; [apply last_snoc | apply added_name].
  - intros l ops Hops. rewrite (add_object_state n l rte s Hrte).
    rewrite lookup_total_alt, exec_all_keeps_object; [| |done].
    + by rewrite added_object.
    + rewrite added_object. eauto.
Qed.

(** C6. [init] creates the toolbar element, once: it creates two elements,
    the first of which, a new [div] with the toolbar's class name, is the
    toolbar.  After it, whatever public operations are called,
    [getToolbarEl()] returns that element, which is still in the document
    under its class name, no element is created, and the file's statements
    write no other element it has created.  [postRender], [enable] and
    [disable] write that element: [postRender] returns, [enable] shows the
    element even when it raises, and [disable] hides it and returns when it
    is given an editor and its collaborators return. *)
Theorem toolbar_created_once
    (opts : option Config) (s0 s : State) (ops : list Op) :
  init defaults construct host opts s0 = (Normal tt, s) →
  let t := Created (created s0) in
  let s' := exec_all construct host ops s in
  created s = S (S (created s0)) ∧
  document s !! t =
    Some {| className := to_str (pStylePrefix (config s)) +:+ "rte-toolbar";
            style := ∅; parentNode := None |} ∧
  getToolbarEl s = (Normal (Some t), s) ∧
  getToolbarEl s' = (Normal (Some t), s') ∧
  created s' = created s ∧
  is_Some (document s' !! t) ∧
  className (document s' !!! t) = className (document s !!! t) ∧
  (∀ n, Created n ≠ t → document s' !! Created n = document s !! Created n) ∧
  (∀ ev, postRender ev s' = (Normal tt, (postRender ev s').2) ∧
         parentNode (document (postRender ev s').2 !!! t) =
           Some (getToolsEl ev) ∧
         style (document (postRender ev s').2 !!! t) !! "pointerEvents" =
           Some "all") ∧
  (∀ view rte,
     style (document (enable construct host view rte s').2 !!! t) !! "display" =
       Some "") ∧
  ((∀ tr, is_normal (host tr) = true) →
   ∀ view r, ∃ s'',
     disable host view (VRef r) s' = (Normal tt, s'') ∧
     style (document s'' !!! t) !! "display" = Some "none" ∧
     style (document s'' !!! t) !! "top" = Some "0" ∧
     style (document s'' !!! t) !! "left" = Some "0") ∧
  (∀ view rte s'',
     disable host view rte s' = (Normal tt, s'') →
     style (document s'' !!! t) !! "display" = Some "none").
Proof.
  intros Hinit t s'.
  pose proof (init_toolbar_element opts s0 s Hinit) as Hel. fold t in Hel.
  apply init_normal in Hinit as (Ht & Hcr & _). fold t in Ht.
  destruct (exec_all_frame ops s) as [Ht' _ Hc _ _ Hd]. fold s' in Ht', Hc, Hd.
  destruct (exec_all_toolbar_element ops t s Ht) as [Hsome Hclass];
    [by rewrite Hel|]. fold s' in Hsome, Hclass.
  rewrite Ht in Ht'.
  unfold getToolbarEl, gets. rewrite Ht', Ht. split_and!; try done.
  - intros n Hn. apply Hd. rewrite Ht. congruence.
  - intros ev. rewrite (postRender_toolbar ev t s' Ht'); simpl.
    rewrite lookup_total_insert_eq; simpl. by rewrite lookup_insert_eq.
  - intros view rte. rewrite (enable_toolbar view rte t s' Ht').
    rewrite lookup_total_insert_eq; simpl. by rewrite lookup_insert_eq.
  - intros Hhost view r.
    destruct (disable_returns view r t s' Ht' Hhost) as [s'' Hdis].
    exists s''. rewrite (disable_toolbar view (VRef r) t s' s'' Ht' Hdis).
    split_and!; [done | | |].
    + do 2 (rewrite lookup_insert_ne by done). by rewrite lookup_insert_eq.
    + rewrite lookup_insert_ne by done. by rewrite lookup_insert_eq.
    + by rewrite lookup_insert_eq.
  - intros view rte s'' Hdis.
    rewrite (disable_toolbar view rte t s' s'' Ht' Hdis).
    do 2 (rewrite lookup_insert_ne by done). by rewrite lookup_insert_eq.
Qed.


(** C8. When several actions of the list have the name, [get(name)] returns
    the last of them: the one after which no action of the list has it. *)
Theorem get_returns_last_match
    (n : string) (s : State) (a : loc) (pre post : list loc) (l : loc) :
  getAll s = (Normal a, s) →
  elements_of s a = pre ++ l :: post →
  action_name s l = Some n →
  (∀ l', l' ∈ post → action_name s l' ≠ Some n) →
  get n s = (Normal (VRef l), s).
Proof.
  rewrite getAll_eq, get_eq. destruct (globalRte s) as [rte|]; [|done].
  intros [= <-] -> Hl Hpost. by rewrite scan_last_match.
Qed.


(** C10. [add(name)] without an action stores a new record [{name: name}],
    which is in the list of [getAll()] and is what [get(name)] returns. *)
Theorem add_without_action (n : string) (a : loc) (s : State) :
  getAll s = (Normal a, s) →
  let s' := (add host n VUndefined s).2 in
  ∃ l, objs s !! l = None ∧
    objs s' !! l = Some {| name := Some n; props := ∅ |} ∧
    getAll s' = (Normal a, s') ∧
    l ∈ elements_of s' a ∧
    get n s' = (Normal (VRef l), s').
Proof.
  intros (rte & Hrte & <-)%getAll_normal s'. subst s'.
  rewrite (add_omitted_state n rte s Hrte).
  set (l := fresh (dom (objs s))). set (s0 := with_objs _ s).
  assert (globalRte (added n l rte s0) = Some rte) as Hrte' by done.
  exists l. split_and!.
  - apply not_elem_of_dom, is_fresh.
  - rewrite added_object. subst s0; simpl.
    by rewrite lookup_total_insert_eq.
  - apply getAll_normal. eauto.
  - rewrite added_elements. apply elem_of_app. right.
    by apply list_elem_of_singleton.
  - rewrite get_eq, Hrte', added_elements.
    rewrite (scan_last_match _ n _ [] l); [done | apply added_name |].
    intros l' Hl'. by apply elem_of_nil in Hl'.
Qed.

End Properties.

(** ** The module at work on the sample editor *)

Lemma Sample_init :
  init Sample.defaults Sample.construct Sample.host (Some Sample.opts)
    Sample.created_module = (Normal tt, Sample.initialised).
Proof. vm_compute. reflexivity. Qed.

Lemma Sample_after_init :
  after_init Sample.defaults Sample.construct Sample.host Sample.initialised.
Proof. exact (after_init_intro _ _ _ _ _ _ Sample_init). Qed.

Lemma Sample_with_objects_init :
  init Sample.defaults Sample.construct Sample.host (Some Sample.opts)
    Sample.created_with_objects = (Normal tt, Sample.with_objects).
Proof. vm_compute. reflexivity. Qed.

Lemma Sample_two_bold_after_init :
  after_init Sample.defaults Sample.construct Sample.host Sample.two_bold.
Proof.
  apply after_init_exec_all.
  exact (after_init_intro _ _ _ _ _ _ Sample_with_objects_init).
Qed.

Lemma Sample_initialised_getAll :
  getAll Sample.initialised = (Normal 7%positive, Sample.initialised).
Proof. vm_compute. reflexivity. Qed.

Lemma Sample_with_objects_getAll :
  getAll Sample.with_objects = (Normal 7%positive, Sample.with_objects).
Proof. vm_compute. reflexivity. Qed.

Lemma Sample_two_bold_getAll :
  getAll Sample.two_bold = (Normal 7%positive, Sample.two_bold).
Proof. vm_compute. reflexivity. Qed.

Lemma Sample_two_bold_elements :
  elements_of Sample.two_bold 7%positive = [Sample.bold; Sample.strong].
Proof. vm_compute. reflexivity. Qed.


Lemma Sample2_one_bold_getAll :
  getAll Sample2.one_bold = (Normal 7%positive, Sample2.one_bold).
Proof. vm_compute. reflexivity. Qed.

Lemma Sample2_one_bold_elements :
  elements_of Sample2.one_bold 7%positive = [Sample.bold].
Proof. vm_compute. reflexivity. Qed.


Lemma Sample_toolbar_class :
  to_str (pStylePrefix (config Sample.initialised)) +:+ "rte-toolbar" =
    "gjs-rte-toolbar".
Proof. vm_compute. reflexivity. Qed.

Lemma added_action_in_getAll_witness :
  let s' :=
    exec_all Sample.construct Sample.host
      [OpEnable Sample.view VUndefined; OpGet "bold"]
      (add Sample.host "bold" (VRef Sample.bold) Sample.with_objects).2 in
  getAll s' = (Normal 7%positive, s') ∧ Sample.bold ∈ elements_of s' 7%positive.
Proof.
  apply (added_action_in_getAll Sample.construct Sample.host "bold"
           Sample.bold 7%positive Sample.with_objects).
  exact Sample_with_objects_getAll.
Defined.

Lemma get_by_name_witness :
  ∃ l, get "bold" Sample.two_bold = (Normal (VRef l), Sample.two_bold) ∧
       l ∈ elements_of Sample.two_bold 7%positive ∧
       action_name Sample.two_bold l = Some "bold".
Proof.
  apply (get_by_name "bold" 7%positive Sample.two_bold).
  - exact Sample_two_bold_getAll.
  - exists Sample.bold. rewrite Sample_two_bold_elements. split.
    + by left.
    + vm_compute. reflexivity.
Defined.

Lemma add_appends_witness :
  elements_of (add Sample.host "bold" (VRef Sample.strong) Sample2.one_bold).2
    7%positive = [Sample.bold; Sample.strong] ∧
  (∃ l, objs Sample2.one_bold !! l = None ∧
        elements_of (add Sample.host "bold" VUndefined Sample2.one_bold).2
          7%positive = [Sample.bold; l]) ∧
  Sample.bold ∈
    elements_of (add Sample.host "bold" (VRef Sample.strong) Sample2.one_bold).2
      7%positive ∧
  Sample.strong ∈
    elements_of (add Sample.host "bold" (VRef Sample.strong) Sample2.one_bold).2
      7%positive ∧
  action_name (add Sample.host "bold" (VRef Sample.strong) Sample2.one_bold).2
    Sample.bold = Some "bold" ∧
  action_name (add Sample.host "bold" (VRef Sample.strong) Sample2.one_bold).2
    Sample.strong = Some "bold".
Proof.
  destruct (add_appends Sample.host "bold" 7%positive Sample2.one_bold
              Sample2_one_bold_getAll)
    as (Hobject & (l & Hnew & _ & Homitted) & Hsame).
  destruct (Hobject Sample.strong) as [_ Hel].
  destruct (Hsame Sample.strong Sample.bold) as (Hb & Hs & Hnb & Hns).
  { rewrite Sample2_one_bold_elements. by left. }
  { vm_compute. reflexivity. }
  rewrite Sample2_one_bold_elements in Hel, Homitted.
  exact (conj Hel (conj (ex_intro _ l (conj Hnew Homitted))
           (conj Hb (conj Hs (conj Hnb Hns))))).
Defined.

Lemma actions_never_removed_witness :
  let s1 :=
    exec_all Sample.construct Sample.host [OpAdd "bold" VUndefined]
      Sample.initialised in
  let s2 :=
    exec_all Sample.construct Sample.host
      [OpEnable Sample.view VUndefined; OpDisable Sample.view VNull;
       OpPostRender {| getToolsEl := Foreign 9 |}; OpAdd "italic" VUndefined]
      s1 in
  ∃ a,
    getAll s1 = (Normal a, s1) ∧ getAll s2 = (Normal a, s2) ∧
    (length (elements_of s1 a) ≤ length (elements_of s2 a))%nat ∧
    ∀ l, l ∈ elements_of s1 a → l ∈ elements_of s2 a.
Proof.
  apply (actions_never_removed Sample.defaults Sample.construct Sample.host).
  exact Sample_after_init.
Defined.

Lemma stored_record_carries_name_witness :
  last (elements_of
          (add Sample.host "bold" (VRef Sample.strong) Sample.with_objects).2
          7%positive) = Some Sample.strong ∧
  name (objs (add Sample.host "bold" (VRef Sample.strong) Sample.with_objects).2
          !!! Sample.strong) = Some "bold" ∧
  name (objs
          (exec_all Sample.construct Sample.host
             [OpAdd "b" (VRef Sample.bold); OpEnable Sample.view VUndefined;
              OpAdd "c" VUndefined]
             (add Sample.host "bold" (VRef Sample.strong)
                Sample.with_objects).2) !!! Sample.strong) = Some "bold".
Proof.
  destruct (stored_record_carries_name Sample.construct Sample.host "bold"
              7%positive Sample.with_objects Sample_with_objects_getAll)
    as (Hobject & _ & Hkeeps).
  destruct (Hobject Sample.strong) as [Hlast Hname].
  refine (conj Hlast (conj Hname (Hkeeps Sample.strong _ _))).
  repeat (constructor; [intros n' Heq; vm_compute in Heq; discriminate|]).
  constructor.
Defined.

(** C5, as stated, fails: the record registered under ['a'] does not carry
    that name once the same object has been added again as ['b']; the list
    holds the object twice and [get('a')] finds nothing. *)
Lemma reregistered_record_is_renamed :
  name (objs (add Sample.host "a" (VRef Sample.bold) Sample.with_objects).2
          !!! Sample.bold) = Some "a" ∧
  elements_of
    (add Sample.host "b" (VRef Sample.bold)
       (add Sample.host "a" (VRef Sample.bold) Sample.with_objects).2).2
    7%positive = [Sample.bold; Sample.bold] ∧
  name (objs
          (add Sample.host "b" (VRef Sample.bold)
             (add Sample.host "a" (VRef Sample.bold) Sample.with_objects).2).2
          !!! Sample.bold) = Some "b" ∧
  get "a"
    (add Sample.host "b" (VRef Sample.bold)
       (add Sample.host "a" (VRef Sample.bold) Sample.with_objects).2).2 =
    (Normal VUndefined,
     (add Sample.host "b" (VRef Sample.bold)
        (add Sample.host "a" (VRef Sample.bold) Sample.with_objects).2).2).
Proof. split_and!; vm_compute; reflexivity. Qed.

Lemma toolbar_created_once_witness :
  let s' :=
    exec_all Sample.construct Sample.host
      [OpPostRender {| getToolsEl := Foreign 9 |};
       OpEnable Sample.view VUndefined; OpDisable Sample.view (VRef 4%positive)]
      Sample.initialised in
  created Sample.initialised = 2 ∧
  document Sample.initialised !! Created 0 =
    Some {| className := "gjs-rte-toolbar"; style := ∅; parentNode := None |} ∧
  getToolbarEl Sample.initialised =
    (Normal (Some (Created 0)), Sample.initialised) ∧
  getToolbarEl s' = (Normal (Some (Created 0)), s') ∧
  created s' = created Sample.initialised ∧
  is_Some (document s' !! Created 0) ∧
  document s' !! Created 1 = document Sample.initialised !! Created 1 ∧
  postRender {| getToolsEl := Foreign 3 |} s' =
    (Normal tt, (postRender {| getToolsEl := Foreign 3 |} s').2) ∧
  parentNode
    (document (postRender {| getToolsEl := Foreign 3 |} s').2 !!! Created 0) =
    Some (Foreign 3) ∧
  style (document (enable Sample.construct Sample.host Sample.view VNull s').2
           !!! Created 0) !! "display" = Some "" ∧
  ∃ s'',
    disable Sample.host Sample.view (VRef 4%positive) s' = (Normal tt, s'') ∧
    style (document s'' !!! Created 0) !! "display" = Some "none" ∧
    style (document s'' !!! Created 0) !! "top" = Some "0" ∧
    style (document s'' !!! Created 0) !! "left" = Some "0".
Proof.
  intros s'.
  pose proof (toolbar_created_once Sample.defaults Sample.construct Sample.host
                (Some Sample.opts) Sample.created_module Sample.initialised
                [OpPostRender {| getToolsEl := Foreign 9 |};
                 OpEnable Sample.view VUndefined;
                 OpDisable Sample.view (VRef 4%positive)] Sample_init) as H.
  cbv zeta in H. fold s' in H.
  destruct H as (Hcreated & Hel & Hget & Hget' & Hsame & Hsome & _ & Hother
                 & Hpost & Henable & Hdisable & _).
  rewrite Sample_toolbar_class in Hel.
  destruct (Hpost {| getToolsEl := Foreign 3 |}) as (Hreturns & Hparent & _).
  destruct (Hdisable (λ _, eq_refl) Sample.view 4%positive)
    as (s'' & Hdis & Hnone & Htop & Hleft).
  assert (Created 1 ≠ Created (created Sample.created_module)) as Hne
    by discriminate.
  exact (conj Hcreated (conj Hel (conj Hget (conj Hget' (conj Hsame
           (conj Hsome (conj (Hother 1 Hne) (conj Hreturns (conj Hparent
           (conj (Henable Sample.view VNull)
              (ex_intro _ s''
                 (conj Hdis (conj Hnone (conj Htop Hleft)))))))))))))).
Defined.



Lemma get_returns_last_match_witness :
  get "bold" Sample.two_bold = (Normal (VRef Sample.strong), Sample.two_bold).
Proof.
  apply (get_returns_last_match "bold" Sample.two_bold 7%positive
           [Sample.bold] [] Sample.strong).
  - exact Sample_two_bold_getAll.
  - vm_compute. reflexivity.
  - vm_compute. reflexivity.
  - intros l' Hl'. by apply elem_of_nil in Hl'.
Defined.



Lemma add_without_action_witness :
  let s' := (add Sample.host "bold" VUndefined Sample.initialised).2 in
  ∃ l, objs Sample.initialised !! l = None ∧
    objs s' !! l = Some {| name := Some "bold"; props := ∅ |} ∧
    getAll s' = (Normal 7%positive, s') ∧
    l ∈ elements_of s' 7%positive ∧
    get "bold" s' = (Normal (VRef l), s').
Proof.
  apply (add_without_action Sample.host "bold" 7%positive Sample.initialised).
  exact Sample_initialised_getAll.
Defined.

(** ** Further properties of the module *)

Lemma scan_ext s s' n n' (ls : list loc) (r : value) :
  (∀ l, l ∈ ls →
        name_eq (action_name s l) n = name_eq (action_name s' l) n') →
  scan s n r ls = scan s' n' r ls.
Proof.
  revert r. induction ls as [|l ls IH]; intros r Heq; [done|]. simpl.
  rewrite (Heq l) by by left. apply IH. intros l' Hl'. apply Heq. by right.
Qed.

Lemma name_eq_false (field : option string) (n : string) :
  field ≠ Some n → name_eq field n = false.
Proof.
  intros Hne. destruct (name_eq field n) eqn:E; [|done].
  by apply name_eq_spec in E.
Qed.

Section Further.

Variable defaults : Config.
Variable construct : list HostCall → completion RichTextEditor.
Variable host : list HostCall → completion value.

Ltac unfold_all :=
  unfold add, get, getAll, getToolbarEl, enable, disable, postRender, init,
    initRte, bind, ret, throw, gets, modify, deref, new_object, new_array,
    createElement, push, update_object, update_element, call, call_with.

(** X1. Before [init], when [toolbar] and [globalRte] are still undefined:
    [get], [getAll], [postRender] and [disable] raise a TypeError and change
    nothing, [getToolbarEl] returns [undefined], and [enable] raises a
    TypeError after it has recorded the view's element in [lastEl]. *)
Theorem before_init_raises
    (n : string) (ev : RenderView) (view : View) (rte : value) (s : State) :
  toolbar s = None →
  globalRte s = None →
  get n s = (Throw TypeError, s) ∧
  getAll s = (Throw TypeError, s) ∧
  getToolbarEl s = (Normal None, s) ∧
  postRender ev s = (Throw TypeError, s) ∧
  disable host view rte s = (Throw TypeError, s) ∧
  enable construct host view rte s =
    (Throw TypeError, with_lastEl (Some (el view)) s).
Proof.
  intros Ht Hg. unfold_all. simpl. rewrite Ht, Hg. done.
Qed.

(** X2. [add] is not atomic.  Before [init], [add(name, action)] with an
    object raises a TypeError and registers nothing, and calls nothing, but
    it has already written [name] on the caller's object. *)
Theorem add_before_init_renames (n : string) (l : loc) (s : State) :
  globalRte s = None →
  (add host n (VRef l) s).1 = Throw TypeError ∧
  action_name (add host n (VRef l) s).2 l = Some n ∧
  arrs (add host n (VRef l) s).2 = arrs s ∧
  trace (add host n (VRef l) s).2 = trace s.
Proof.
  intros Hg. unfold_all. repeat (progress (simpl; rewrite ?Hg)).
  split_and!; try done.
  unfold action_name; simpl. by rewrite lookup_total_insert_eq.
Qed.

(** X3. When [addAction] throws, [add] throws the same exception, after the
    registration: the action is the last of the list and [get(name)] returns
    it. *)
Theorem add_keeps_registration_on_error
    (n : string) (l a : loc) (rte : RichTextEditor) (e : error) (s : State) :
  globalRte s = Some rte →
  getActions rte = a →
  host (trace s ++ [CallAddAction rte l 1]) = Throw e →
  (add host n (VRef l) s).1 = Throw e ∧
  elements_of (add host n (VRef l) s).2 a = elements_of s a ++ [l] ∧
  get n (add host n (VRef l) s).2 =
    (Normal (VRef l), (add host n (VRef l) s).2).
Proof.
  intros Hrte <- Hhost. rewrite (add_object host n l rte s Hrte), Hhost.
  simpl. split_and!; [done | apply added_elements |].
  rewrite get_eq, added_globalRte, Hrte, added_elements.
  rewrite (scan_last_match _ n _ [] l); [done | apply added_name |].
  intros l' Hl'. by apply elem_of_nil in Hl'.
Qed.

(** X4. An action just added shadows the earlier ones: after
    [add(name, action)], [get(name)] returns that action, whatever the list
    held. *)
Theorem get_after_add (n : string) (l a : loc) (s : State) :
  getAll s = (Normal a, s) →
  get n (add host n (VRef l) s).2 =
    (Normal (VRef l), (add host n (VRef l) s).2).
Proof.
  intros (rte & Hrte & <-)%getAll_normal.
  rewrite (add_object_state host n l rte s Hrte).
  rewrite get_eq, added_globalRte, Hrte, added_elements.
  rewrite (scan_last_match _ n _ [] l); [done | apply added_name |].
  intros l' Hl'. by apply elem_of_nil in Hl'.
Qed.

(** X5. Adding an object again under a new name takes its old name away:
    when the object was the only action of the list named [n'], after
    [add(n, action)] with another name [get(n')] returns [undefined],
    although the object is still in the list. *)
Theorem add_again_renames (n n' : string) (l a : loc) (s : State) :
  getAll s = (Normal a, s) →
  n ≠ n' →
  (∀ l0, l0 ∈ elements_of s a → action_name s l0 = Some n' → l0 = l) →
  get n' (add host n (VRef l) s).2 =
    (Normal VUndefined, (add host n (VRef l) s).2) ∧
  (∀ l0, l0 ∈ elements_of s a →
         l0 ∈ elements_of (add host n (VRef l) s).2 a).
Proof.
  intros (rte & Hrte & <-)%getAll_normal Hne Honly.
  rewrite (add_object_state host n l rte s Hrte).
  rewrite get_eq, added_globalRte, Hrte, added_elements. split.
  - rewrite scan_no_match; [done|]. intros l0 Hl0.
    destruct (decide (l0 = l)) as [->|Hl].
    + rewrite added_name. congruence.
    + rewrite added_name_other by done.
      apply elem_of_app in Hl0 as [Hl0 | Hl0%list_elem_of_singleton]; [|done].
      intros Hn'. by destruct Hl; apply Honly.
  - intros l0 Hl0. apply elem_of_app. by left.
Qed.

(** X6. [add(n, action)] does not disturb the other names: for a name [n']
    other than [n] under which the object was not known, [get(n')] returns
    after the call what it returned before. *)
Theorem add_keeps_other_names (n n' : string) (l a : loc) (s : State) :
  getAll s = (Normal a, s) →
  n ≠ n' →
  action_name s l ≠ Some n' →
  (get n' (add host n (VRef l) s).2).1 = (get n' s).1.
Proof.
  intros (rte & Hrte & <-)%getAll_normal Hne Hl.
  rewrite (add_object_state host n l rte s Hrte).
  rewrite !get_eq, added_globalRte, Hrte, added_elements. simpl. f_equal.
  rewrite foldl_app. simpl. rewrite added_name.
  rewrite (name_eq_false (Some n) n') by congruence.
  apply scan_ext. intros l0 _.
  destruct (decide (l0 = l)) as [->|Hl0].
  - rewrite added_name, (name_eq_false (Some n) n') by congruence.
    by rewrite name_eq_false.
  - by rewrite added_name_other.
Qed.

(** The hooks and the read accessors leave objects and arrays alone. *)
Lemma exec_not_add_store (o : Op) (s : State) :
  is_add o = false →
  objs (exec construct host o s) = objs s ∧
  arrs (exec construct host o s) = arrs s.
Proof.
  destruct o; try discriminate; intros _; simpl; unfold_all; simpl;
    destruct_matches; done.
Qed.

Lemma exec_all_not_add_store (ops : list Op) (s : State) :
  Forall (λ o, is_add o = false) ops →
  objs (exec_all construct host ops s) = objs s ∧
  arrs (exec_all construct host ops s) = arrs s.
Proof.
  revert s. induction ops as [|o ops IH]; intros s Hops; simpl; [done|].
  apply Forall_cons in Hops as [Ho Hops].
  destruct (exec_not_add_store o s Ho) as [Hobjs Harrs].
  destruct (IH (exec construct host o s) Hops) as [-> ->]. done.
Qed.

(** X7. Only [add] changes what [get] finds: after any sequence of [get],
    [getAll], [getToolbarEl], [enable], [disable] and [postRender],
    [get(name)] returns what it returned before the sequence. *)
Theorem get_unchanged_by_hooks (n : string) (ops : list Op) (s : State) :
  Forall (λ o, is_add o = false) ops →
  get n (exec_all construct host ops s) =
    ((get n s).1, exec_all construct host ops s).
Proof.
  intros Hops. destruct (exec_all_not_add_store ops s Hops) as [Hobjs Harrs].
  destruct (exec_all_frame construct host ops s) as [_ Hg _ _ _ _].
  rewrite !get_eq, Hg. destruct (globalRte s) as [rte|]; [|done]. simpl.
  unfold elements_of. rewrite Harrs. do 2 f_equal.
  apply scan_ext. intros l _. unfold action_name. by rewrite Hobjs.
Qed.

Lemma exec_length (o : Op) (rte : RichTextEditor) (s : State) :
  globalRte s = Some rte →
  length (elements_of (exec construct host o s) (getActions rte)) =
  (length (elements_of s (getActions rte)) + if registers o then 1 else 0)%nat.
Proof.
  intros Hrte. destruct (is_add o) eqn:Hadd.
  - destruct o as [n action| | | | | |]; try discriminate.
    destruct action as [| |b|str|l]; simpl.
    + rewrite (add_omitted_state host n rte s Hrte), added_elements.
      by rewrite length_app.
    + by rewrite Nat.add_0_r.
    + by rewrite Nat.add_0_r.
    + by rewrite Nat.add_0_r.
    + rewrite (add_object_state host n l rte s Hrte), added_elements.
      by rewrite length_app.
  - destruct (exec_not_add_store o s Hadd) as [_ Harrs].
    unfold elements_of. rewrite Harrs.
    destruct o; try discriminate; simpl; by rewrite Nat.add_0_r.
Qed.

(** X8. The list grows by exactly one element for each [add] that is given
    an object or no action, and by nothing otherwise: after a sequence of
    public operations its length is the length before plus the number of
    such calls. *)
Theorem list_grows_by_adds (a : loc) (ops : list Op) (s : State) :
  getAll s = (Normal a, s) →
  length (elements_of (exec_all construct host ops s) a) =
  (length (elements_of s a) + length (List.filter registers ops))%nat.
Proof.
  intros (rte & Hrte & <-)%getAll_normal. revert s Hrte.
  induction ops as [|o ops IH]; intros s Hrte; simpl.
  - by rewrite Nat.add_0_r.
  - destruct (exec_frame construct host o s) as [_ Hg _ _ _ _].
    rewrite IH by by rewrite Hg. rewrite (exec_length o rte s Hrte).
    destruct (registers o); simpl; lia.
Qed.

Lemma exec_props (o : Op) (l : loc) (s : State) :
  props (objs (exec construct host o s) !!! l) = props (objs s !!! l).
Proof.
  assert (props (objs s !!! fresh (dom (objs s))) = ∅) as Hfresh.
  { rewrite lookup_total_alt.
    by rewrite (not_elem_of_dom_1 _ _ (is_fresh (dom (objs s)))). }
  destruct (is_add o) eqn:Hadd.
  - destruct o as [n action| | | | | |]; try discriminate.
    destruct action as [| |b|str|l0]; simpl; unfold_all; simpl;
      destruct_matches; simpl;
      repeat (rewrite lookup_total_insert; case_decide; subst; simpl);
      by rewrite ?Hfresh.
  - destruct (exec_not_add_store o s Hadd) as [Hobjs _]. by rewrite Hobjs.
Qed.

(** X9. The module writes no property of an object but [name]: through any
    sequence of public operations every object keeps its other properties,
    and an object created by [add] has none. *)
Theorem props_never_written (ops : list Op) (l : loc) (s : State) :
  props (objs (exec_all construct host ops s) !!! l) = props (objs s !!! l).
Proof.
  revert s. induction ops as [|o ops IH]; intros s; simpl; [done|].
  by rewrite IH, exec_props.
Qed.

Lemma lookup_snoc_prefix {A} (l l' : list A) (x : A) :
  l ++ [x] `prefix_of` l' → l' !! length l = Some x.
Proof. intros [k ->]. rewrite <- app_assoc. simpl. by apply list_lookup_middle. Qed.

(** What [init] establishes besides the toolbar. *)
Lemma init_this_actions (opts : option Config) (s0 s : State) :
  init defaults construct host opts s0 = (Normal tt, s) →
  ∃ rte, globalRte s = Some rte ∧ this_actions s = Some (getActions rte).
Proof.
  unfold_all. simpl. destruct_matches; simpl; intros [= <-]; simpl; eauto.
Qed.

Lemma exec_this_actions (o : Op) (a : loc) (s : State) :
  keeps_actions construct →
  this_actions s = Some a →
  this_actions (exec construct host o s) = Some a.
Proof.
  intros Hkeeps Ha. destruct o; simpl; unfold_all; simpl;
    destruct_matches; simpl; try done.
  all: f_equal; eapply Hkeeps; [eassumption|]; simpl; by rewrite Ha.
Qed.

Lemma after_init_this_actions (s : State) :
  keeps_actions construct →
  after_init defaults construct host s →
  ∃ rte, globalRte s = Some rte ∧ this_actions s = Some (getActions rte).
Proof.
  intros Hkeeps. induction 1 as [opts s0 s Hinit | o s _ (rte & Hg & Ha)].
  - by eapply init_this_actions.
  - exists rte. split.
    + destruct (exec_frame construct host o s) as [_ -> _ _ _ _]. done.
    + by apply exec_this_actions.
Qed.

(** X10. The editors of the elements share the list.  When the model class
    keeps the array it is given, [enable], after [init] and without a custom
    editor, constructs the editor of the view's children container with the
    very array that [getAll()] returns, and with the toolbar as the container
    of its action bar. *)
Theorem enable_shares_actions (view : View) (rte : value) (s : State) :
  keeps_actions construct →
  after_init defaults construct host s →
  customRte s = None →
  ∃ a,
    getAll s = (Normal a, s) ∧
    trace (enable construct host view rte s).2 !! length (trace s) =
      Some (CallNew (settings_for (getChildrenContainer view) s)) ∧
    set_actions (settings_for (getChildrenContainer view) s) = Some a ∧
    getToolbarEl s =
      (Normal (set_actionbarContainer
                 (settings_for (getChildrenContainer view) s)), s).
Proof.
  intros Hkeeps Hs Hcustom.
  destruct (after_init_this_actions s Hkeeps Hs) as (r & Hg & Ha).
  destruct (after_init_initialised defaults construct host s Hs) as [[t Ht] _].
  exists (getActions r). split_and!.
  - apply getAll_normal. eauto.
  - apply lookup_snoc_prefix. unfold settings_for. unfold_all.
    repeat (progress (simpl; rewrite ?Ht, ?Hcustom)).
    destruct_matches; simpl;
      repeat (first [reflexivity | apply prefix_app_r]).
  - unfold settings_for; simpl. by rewrite Ha.
  - done.
Qed.

(** X11. The configured actions are the list.  When the options (or the
    defaults) name an array of actions, the module object has none yet and
    the model class keeps the array it is given, then after [init]
    [getAll()] returns that very array. *)
Theorem init_uses_configured_actions
    (opts : option Config) (a : loc) (s0 s : State) :
  keeps_actions construct →
  this_actions s0 = None →
  config_actions (merge_defaults defaults (default empty_config opts)) =
    Some a →
  init defaults construct host opts s0 = (Normal tt, s) →
  getAll s = (Normal a, s).
Proof.
  intros Hkeeps Hthis Hcfg. simpl in Hcfg. unfold_all. simpl.
  destruct_matches; simpl in *; intros [= <-]; simpl;
    rewrite ?Hthis, ?Hcfg in *; simplify_eq/=.
  all: match goal with
       | H : construct _ = Normal ?r |- _ =>
           unfold getActions; rewrite (Hkeeps _ _ r _ H eq_refl)
       end; done.
Qed.

(** X12. The class names come from the two prefixes.  After [init] the
    toolbar's class is the [pStylePrefix] option followed by [rte-toolbar],
    and [pfx] is [stylePrefix] with [pStylePrefix] in front of it when that
    one is a non-empty string; with no [pStylePrefix] at all the class is
    [undefinedrte-toolbar]. *)
Theorem init_prefixes (opts : option Config) (s0 s : State) :
  init defaults construct host opts s0 = (Normal tt, s) →
  let c := merge_defaults defaults (default empty_config opts) in
  className (document s !!! Created (created s0)) =
    to_str (pStylePrefix c) +:+ "rte-toolbar" ∧
  pfx s = (if truthy_str (pStylePrefix c)
           then Some (to_str (pStylePrefix c) +:+ to_str (stylePrefix c))
           else stylePrefix c) ∧
  (pStylePrefix c = None →
   className (document s !!! Created (created s0)) = "undefinedrte-toolbar").
Proof.
  intros Hinit c. revert Hinit. unfold_all. simpl. fold c.
  assert (∀ (x y : Element) (d : gmap elem Element),
            <[Created (S (created s0)) := y]>
              (<[Created (created s0) := x]> d) !!! Created (created s0) = x)
    as Hlook.
  { intros x y d. rewrite lookup_total_insert_ne by (intros [=]; lia).
    apply lookup_total_insert_eq. }
  destruct_matches; simpl; intros [= <-]; simpl;
    rewrite ?insert_insert_eq, ?Hlook; simpl;
    (split_and!; [done | done | by intros ->]).
Qed.

(** [init] writes the two elements it creates and no other. *)
Lemma init_document (opts : option Config) (s0 : State) (e : elem) :
  e ≠ Created (created s0) →
  e ≠ Created (S (created s0)) →
  document (init defaults construct host opts s0).2 !! e = document s0 !! e.
Proof.
  intros H1 H2. unfold_all. simpl. destruct_matches; simpl;
    repeat (rewrite lookup_insert_ne by done); done.
Qed.

(** X13. [init] does not guard against a second call: called again, after
    any public operations, it creates another toolbar and makes it the one
    that [getToolbarEl()] returns; the first element is left as it was. *)
Theorem init_again_replaces_toolbar
    (opts1 opts2 : option Config) (ops : list Op) (s0 s1 s2 : State) :
  init defaults construct host opts1 s0 = (Normal tt, s1) →
  init defaults construct host opts2 (exec_all construct host ops s1) =
    (Normal tt, s2) →
  ∃ t1 t2,
    getToolbarEl s1 = (Normal (Some t1), s1) ∧
    getToolbarEl s2 = (Normal (Some t2), s2) ∧
    t1 ≠ t2 ∧
    document s2 !! t1 = document (exec_all construct host ops s1) !! t1.
Proof.
  intros (Ht1 & Hc1 & _)%init_normal Hinit2.
  pose proof (init_normal defaults construct host _ _ _ Hinit2)
    as (Ht2 & _ & _).
  destruct (exec_all_frame construct host ops s1) as [_ _ Hc _ _ _].
  rewrite Hc, Hc1 in Ht2.
  exists (Created (created s0)), (Created (S (S (created s0)))).
  unfold getToolbarEl, gets. rewrite Ht1, Ht2. split_and!; try done.
  - intros [=]. lia.
  - replace s2 with
      (init defaults construct host opts2 (exec_all construct host ops s1)).2
      by by rewrite Hinit2.
    apply init_document; rewrite Hc, Hc1; intros [=]; lia.
Qed.

(** X14. A failing [init] leaves the module half initialised.  [init] raises
    only what the model's constructor or the [on] helper throws; by then the
    new toolbar is in place.  If the constructor threw, [globalRte] is what
    it was before; if [on] threw, [globalRte] is set. *)
Theorem init_failure_is_partial
    (opts : option Config) (e : error) (s0 s : State) :
  init defaults construct host opts s0 = (Throw e, s) →
  getToolbarEl s = (Normal (Some (Created (created s0))), s) ∧
  ((construct (trace s) = Throw e ∧ globalRte s = globalRte s0) ∨
   (host (trace s) = Throw e ∧ is_Some (globalRte s))).
Proof.
  unfold_all. simpl. destruct_matches; simpl in *; try discriminate;
    intros [= <- <-]; simpl; (split; [done|]); eauto.
Qed.

(** X15. [postRender] is idempotent: a second call with the same view leaves
    the state of the first, and returns (or raises) as the first did. *)
Theorem postRender_idempotent (ev : RenderView) (s : State) :
  postRender ev (postRender ev s).2 = postRender ev s.
Proof.
  destruct (toolbar s) as [t|] eqn:Ht.
  - rewrite (postRender_toolbar ev t s Ht). simpl.
    match goal with
    | |- postRender ev ?s' = _ =>
        rewrite (postRender_toolbar ev t s' Ht)
    end. simpl.
    rewrite lookup_total_insert_eq. f_equal.
    unfold with_document; simpl. f_equal.
    rewrite !insert_insert_eq. f_equal.
    unfold set_parentNode, set_style; simpl. f_equal.
    by rewrite insert_insert_eq.
  - unfold postRender, bind, deref. repeat (progress (simpl; rewrite ?Ht)).
    done.
Qed.

(** X16. Without a custom editor, [disable(view, rte)] needs the editor:
    when [rte] is not an object it raises a TypeError and changes nothing, so
    the toolbar stays as it was. *)
Theorem disable_without_editor (view : View) (rte : value) (s : State) :
  customRte s = None →
  (∀ l, rte ≠ VRef l) →
  disable host view rte s = (Throw TypeError, s).
Proof.
  intros Hcustom Hrte. unfold_all. simpl. rewrite Hcustom.
  destruct (toolbar s); [|done]. destruct rte; try done. by destruct (Hrte l).
Qed.

(** X17. [disable] hides the toolbar only after the editor's own [disable]
    has returned: when that call throws, [disable] throws the same exception
    and no element has been written. *)
Theorem disable_keeps_toolbar_on_error
    (view : View) (r : loc) (t : elem) (e : error) (s : State) :
  toolbar s = Some t →
  host (trace s ++
        [match customRte s with
         | Some c => CallCustomDisable c (getChildrenContainer view) (VRef r)
         | None => CallRteDisable r
         end]) = Throw e →
  (disable host view (VRef r) s).1 = Throw e ∧
  document (disable host view (VRef r) s).2 = document s.
Proof.
  intros Ht. unfold_all. simpl. rewrite Ht.
  destruct (customRte s); simpl; intros ->; done.
Qed.

(** X18. With a custom editor, [enable] never constructs the built-in one:
    none of the calls it makes is [new RichTextEditor], and the [actions] and
    [actionbar] fields of the module object stay as they were. *)
Theorem enable_custom_never_constructs
    (view : View) (rte : value) (c : loc) (s : State) :
  customRte s = Some c →
  (∀ st, CallNew st ∉
         drop (length (trace s)) (trace (enable construct host view rte s).2)) ∧
  this_actions (enable construct host view rte s).2 = this_actions s ∧
  actionbar (enable construct host view rte s).2 = actionbar s.
Proof.
  intros Hc. unfold_all. simpl. rewrite Hc.
  destruct_matches; simpl; (split; [|done]); intros st;
    rewrite <- ?app_assoc, ?drop_app_length, ?drop_all; simpl; intros Hin;
    repeat (apply elem_of_cons in Hin as [Hin|Hin]; [discriminate|]);
    by apply elem_of_nil in Hin.
Qed.

(** X19. The list is in the order of the calls: a run of [add] calls with
    objects leaves the list it found, followed by those objects in the order
    they were added. *)
Theorem adds_append_in_order
    (a : loc) (adds : list (string * loc)) (s : State) :
  getAll s = (Normal a, s) →
  elements_of
    (exec_all construct host (map (λ p, OpAdd p.1 (VRef p.2)) adds) s) a =
  elements_of s a ++ map snd adds.
Proof.
  intros (rte & Hrte & <-)%getAll_normal. revert s Hrte.
  induction adds as [|[n l] adds IH]; intros s Hrte; simpl.
  - by rewrite app_nil_r.
  - rewrite IH by by rewrite (add_object_state host n l rte s Hrte).
    rewrite (add_object_state host n l rte s Hrte), added_elements.
    by rewrite <- app_assoc.
Qed.

End Further.

(** ** The further properties on the sample editor *)

Lemma Sample_keeps_actions : keeps_actions Sample.construct.
Proof.
  intros t st r a Hr Ha. unfold Sample.construct in Hr.
  rewrite last_snoc in Hr. injection Hr as <-. simpl. by rewrite Ha.
Qed.

Lemma Sample_globalRte :
  globalRte Sample.with_objects =
    Some {| rte_el := Created 1; rte_actions := 7%positive;
            rte_actionbar := Some (Foreign 0) |}.
Proof. vm_compute. reflexivity. Qed.

Lemma before_init_raises_witness :
  get "bold" Sample.created_module = (Throw TypeError, Sample.created_module) ∧
  getAll Sample.created_module = (Throw TypeError, Sample.created_module) ∧
  getToolbarEl Sample.created_module = (Normal None, Sample.created_module) ∧
  postRender {| getToolsEl := Foreign 9 |} Sample.created_module =
    (Throw TypeError, Sample.created_module) ∧
  disable Sample.host Sample.view VUndefined Sample.created_module =
    (Throw TypeError, Sample.created_module) ∧
  enable Sample.construct Sample.host Sample.view VUndefined
    Sample.created_module =
    (Throw TypeError,
     with_lastEl (Some (el Sample.view)) Sample.created_module).
Proof.
  exact (before_init_raises Sample.construct Sample.host "bold"
           {| getToolsEl := Foreign 9 |} Sample.view VUndefined
           Sample.created_module eq_refl eq_refl).
Defined.

Lemma add_before_init_renames_witness :
  (add Sample.host "bold" (VRef Sample.strong) Sample.created_with_objects).1 =
    Throw TypeError ∧
  action_name
    (add Sample.host "bold" (VRef Sample.strong) Sample.created_with_objects).2
    Sample.strong = Some "bold" ∧
  arrs (add Sample.host "bold" (VRef Sample.strong)
          Sample.created_with_objects).2 = arrs Sample.created_with_objects ∧
  trace (add Sample.host "bold" (VRef Sample.strong)
           Sample.created_with_objects).2 = trace Sample.created_with_objects.
Proof.
  exact (add_before_init_renames Sample.host "bold" Sample.strong
           Sample.created_with_objects eq_refl).
Defined.

Lemma add_keeps_registration_on_error_witness :
  (add Sample2.failing_host "bold" (VRef Sample.bold) Sample.with_objects).1 =
    Throw HostError ∧
  elements_of
    (add Sample2.failing_host "bold" (VRef Sample.bold) Sample.with_objects).2
    7%positive = elements_of Sample.with_objects 7%positive ++ [Sample.bold] ∧
  get "bold"
    (add Sample2.failing_host "bold" (VRef Sample.bold) Sample.with_objects).2 =
    (Normal (VRef Sample.bold),
     (add Sample2.failing_host "bold" (VRef Sample.bold) Sample.with_objects).2).
Proof.
  refine (add_keeps_registration_on_error Sample2.failing_host "bold"
            Sample.bold 7%positive _ HostError Sample.with_objects
            Sample_globalRte eq_refl _).
  vm_compute. reflexivity.
Defined.

Lemma get_after_add_witness :
  get "bold" (add Sample.host "bold" (VRef Sample.strong) Sample2.one_bold).2 =
    (Normal (VRef Sample.strong),
     (add Sample.host "bold" (VRef Sample.strong) Sample2.one_bold).2).
Proof.
  exact (get_after_add Sample.host "bold" Sample.strong 7%positive
           Sample2.one_bold Sample2_one_bold_getAll).
Defined.

Lemma add_again_renames_witness :
  get "bold" (add Sample.host "b" (VRef Sample.bold) Sample2.one_bold).2 =
    (Normal VUndefined,
     (add Sample.host "b" (VRef Sample.bold) Sample2.one_bold).2) ∧
  (∀ l0, l0 ∈ elements_of Sample2.one_bold 7%positive →
         l0 ∈ elements_of
                (add Sample.host "b" (VRef Sample.bold) Sample2.one_bold).2
                7%positive).
Proof.
  refine (add_again_renames Sample.host "b" "bold" Sample.bold 7%positive
            Sample2.one_bold Sample2_one_bold_getAll _ _).
  - discriminate.
  - intros l0 Hl0 _. rewrite Sample2_one_bold_elements in Hl0.
    by apply list_elem_of_singleton in Hl0.
Defined.

Lemma add_keeps_other_names_witness :
  (get "bold"
     (add Sample.host "italic" (VRef Sample.strong) Sample2.one_bold).2).1 =
  (get "bold" Sample2.one_bold).1.
Proof.
  refine (add_keeps_other_names Sample.host "italic" "bold" Sample.strong
            7%positive Sample2.one_bold Sample2_one_bold_getAll _ _).
  - discriminate.
  - vm_compute. discriminate.
Defined.

Lemma get_unchanged_by_hooks_witness :
  get "bold"
    (exec_all Sample.construct Sample.host
       [OpEnable Sample.view VUndefined; OpPostRender {| getToolsEl := Foreign 9 |};
        OpDisable Sample.view VNull; OpGet "italic"] Sample2.one_bold) =
  ((get "bold" Sample2.one_bold).1,
   exec_all Sample.construct Sample.host
     [OpEnable Sample.view VUndefined; OpPostRender {| getToolsEl := Foreign 9 |};
      OpDisable Sample.view VNull; OpGet "italic"] Sample2.one_bold).
Proof.
  apply (get_unchanged_by_hooks Sample.construct Sample.host).
  repeat constructor.
Defined.

Lemma list_grows_by_adds_witness :
  length
    (elements_of
       (exec_all Sample.construct Sample.host
          [OpAdd "a" VUndefined; OpAdd "b" VNull; OpGet "a";
           OpAdd "c" (VRef Sample.bold); OpAdd "d" (VStr "x")]
          Sample.with_objects) 7%positive) =
  (length (elements_of Sample.with_objects 7%positive) + 2)%nat.
Proof.
  exact (list_grows_by_adds Sample.construct Sample.host 7%positive
           [OpAdd "a" VUndefined; OpAdd "b" VNull; OpGet "a";
            OpAdd "c" (VRef Sample.bold); OpAdd "d" (VStr "x")]
           Sample.with_objects Sample_with_objects_getAll).
Defined.

Lemma enable_shares_actions_witness :
  ∃ a,
    getAll Sample.two_bold = (Normal a, Sample.two_bold) ∧
    trace (enable Sample.construct Sample.host Sample.view VUndefined
             Sample.two_bold).2 !! length (trace Sample.two_bold) =
      Some (CallNew (settings_for (getChildrenContainer Sample.view)
                       Sample.two_bold)) ∧
    set_actions (settings_for (getChildrenContainer Sample.view)
                   Sample.two_bold) = Some a ∧
    getToolbarEl Sample.two_bold =
      (Normal (set_actionbarContainer
                 (settings_for (getChildrenContainer Sample.view)
                    Sample.two_bold)), Sample.two_bold).
Proof.
  refine (enable_shares_actions Sample.defaults Sample.construct Sample.host
            Sample.view VUndefined Sample.two_bold Sample_keeps_actions
            Sample_two_bold_after_init _).
  vm_compute. reflexivity.
Defined.

Lemma init_uses_configured_actions_witness :
  getAll (init Sample.defaults Sample.construct Sample.host
            (Some Sample2.opts_actions) Sample2.created_with_actions).2 =
    (Normal 5%positive,
     (init Sample.defaults Sample.construct Sample.host
        (Some Sample2.opts_actions) Sample2.created_with_actions).2).
Proof.
  refine (init_uses_configured_actions Sample.defaults Sample.construct
            Sample.host (Some Sample2.opts_actions) 5%positive
            Sample2.created_with_actions _ Sample_keeps_actions
            eq_refl eq_refl _).
  vm_compute. reflexivity.
Defined.

Lemma init_prefixes_witness :
  className (document Sample.initialised !!! Created 0) = "gjs-rte-toolbar" ∧
  pfx Sample.initialised = Some "gjs-rte-" ∧
  className
    (document (init Sample.defaults Sample.construct Sample.host None
                 Sample.created_module).2 !!! Created 0) =
    "undefinedrte-toolbar".
Proof.
  destruct (init_prefixes Sample.defaults Sample.construct Sample.host
              (Some Sample.opts) Sample.created_module Sample.initialised
              Sample_init) as (Hclass & Hpfx & _).
  destruct (init_prefixes Sample.defaults Sample.construct Sample.host
              None Sample.created_module
              (init Sample.defaults Sample.construct Sample.host None
                 Sample.created_module).2
              ltac:(vm_compute; reflexivity)) as (_ & _ & Hnone).
  exact (conj Hclass (conj Hpfx (Hnone eq_refl))).
Defined.

Lemma init_again_replaces_toolbar_witness :
  ∃ t1 t2,
    getToolbarEl Sample.initialised = (Normal (Some t1), Sample.initialised) ∧
    getToolbarEl
      (init Sample.defaults Sample.construct Sample.host None
         (exec_all Sample.construct Sample.host [OpAdd "bold" VUndefined]
            Sample.initialised)).2 =
      (Normal (Some t2),
       (init Sample.defaults Sample.construct Sample.host None
          (exec_all Sample.construct Sample.host [OpAdd "bold" VUndefined]
             Sample.initialised)).2) ∧
    t1 ≠ t2 ∧
    document
      (init Sample.defaults Sample.construct Sample.host None
         (exec_all Sample.construct Sample.host [OpAdd "bold" VUndefined]
            Sample.initialised)).2 !! t1 =
    document
      (exec_all Sample.construct Sample.host [OpAdd "bold" VUndefined]
         Sample.initialised) !! t1.
Proof.
  refine (init_again_replaces_toolbar Sample.defaults Sample.construct
            Sample.host (Some Sample.opts) None [OpAdd "bold" VUndefined]
            Sample.created_module Sample.initialised _ Sample_init _).
  vm_compute. reflexivity.
Defined.

Lemma init_failure_is_partial_witness :
  getToolbarEl
    (init Sample.defaults Sample2.failing_construct Sample.host None
       Sample.created_module).2 =
    (Normal (Some (Created 0)),
     (init Sample.defaults Sample2.failing_construct Sample.host None
        Sample.created_module).2) ∧
  globalRte
    (init Sample.defaults Sample2.failing_construct Sample.host None
       Sample.created_module).2 = None.
Proof.
  destruct (init_failure_is_partial Sample.defaults Sample2.failing_construct
              Sample.host None HostError Sample.created_module
              (init Sample.defaults Sample2.failing_construct Sample.host None
                 Sample.created_module).2
              ltac:(vm_compute; reflexivity)) as (Ht & _).
  split; [exact Ht | vm_compute; reflexivity].
Defined.

Lemma disable_without_editor_witness :
  disable Sample.host Sample.view VUndefined Sample.initialised =
    (Throw TypeError, Sample.initialised).
Proof.
  refine (disable_without_editor Sample.host Sample.view VUndefined
            Sample.initialised _ _).
  - vm_compute. reflexivity.
  - discriminate.
Defined.

Lemma disable_keeps_toolbar_on_error_witness :
  (disable Sample2.failing_host Sample.view (VRef 4%positive)
     Sample.initialised).1 = Throw HostError ∧
  document
    (disable Sample2.failing_host Sample.view (VRef 4%positive)
       Sample.initialised).2 = document Sample.initialised.
Proof.
  refine (disable_keeps_toolbar_on_error Sample2.failing_host Sample.view
            4%positive (Created 0) HostError Sample.initialised _ _).
  - vm_compute. reflexivity.
  - vm_compute. reflexivity.
Defined.

Lemma enable_custom_never_constructs_witness :
  (∀ st, CallNew st ∉
         drop (length (trace Sample2.with_custom))
           (trace (enable Sample.construct Sample.host Sample.view VUndefined
                     Sample2.with_custom).2)) ∧
  this_actions (enable Sample.construct Sample.host Sample.view VUndefined
                  Sample2.with_custom).2 = this_actions Sample2.with_custom ∧
  actionbar (enable Sample.construct Sample.host Sample.view VUndefined
               Sample2.with_custom).2 = actionbar Sample2.with_custom.
Proof.
  exact (enable_custom_never_constructs Sample.construct Sample.host
           Sample.view VUndefined 9%positive Sample2.with_custom eq_refl).
Defined.

Lemma adds_append_in_order_witness :
  elements_of
    (exec_all Sample.construct Sample.host
       (map (λ p, OpAdd p.1 (VRef p.2))
          [("bold", Sample.bold); ("strong", Sample.strong)])
       Sample.with_objects) 7%positive =
  elements_of Sample.with_objects 7%positive ++
    map snd [("bold", Sample.bold); ("strong", Sample.strong)].
Proof.
  exact (adds_append_in_order Sample.construct Sample.host 7%positive
           [("bold", Sample.bold); ("strong", Sample.strong)]
           Sample.with_objects Sample_with_objects_getAll).
Defined.
